(** * The MinIO operator's StatefulSet compiler
    (pkg/resources/statefulsets/minio-statefulset.go)

    A shallow embedding of the functions that turn a [MinIOInstance]
    custom resource into the [StatefulSet] handed to the cluster, and the
    properties the specification states about them.

    Conventions of the embedding:
    - a Go [string] is a [string], a Go [int]/[int32] is a [Z] (no
      arithmetic of this file can wrap: the only arithmetic is the loop
      counter [i++] below a bound that is itself an [int]);
    - a Go pointer is an [option] ([nil] is [None]); dereferencing [nil]
      and indexing a slice out of range panic, and a panic is the [None]
      of the [option] monad in which the functions of the file run;
    - a Go [map[string]string] is an [option (gmap string string)]
      ([None] is the nil map, which reads as the empty map and may not be
      written); a slice is a [list], the nil slice being the empty one;
    - Kubernetes structs carry the fields this file reads or writes; what
      it only copies through is kept abstract ([K8sPayload]). *)

From Stdlib Require Import ZArith String Ascii List DecimalString DecimalPos DecimalZ Lia.
From stdpp Require Import base option list strings gmap fin_maps.

Local Open Scope Z_scope.

(** ** The Go library functions the file calls *)

Module Go.

(** [strconv.Itoa]: decimal, a leading [-] for negatives. *)
Definition Itoa (i : Z) : string := NilZero.string_of_int (Z.to_int i).

(** [strings.IndexByte(s, c) >= 0]. *)
Fixpoint ContainsByte (c : ascii) (s : string) : bool :=
  match s with
  | EmptyString => false
  | String a rest => if Ascii.eqb a c then true else ContainsByte c rest
  end.

(** [net.JoinHostPort]: ["host:port"], or ["[host]:port"] when the host
    contains a colon. *)
Definition JoinHostPort (host port : string) : string :=
  if ContainsByte ":" host then "[" +:+ host +:+ "]:" +:+ port
  else host +:+ ":" +:+ port.

(** The tail [fmt] appends when operands are left over. *)
Fixpoint extraOperands (args : list string) : string :=
  match args with
  | [] => EmptyString
  | [a] => "string=" +:+ a
  | a :: rest => "string=" +:+ a +:+ ", " +:+ extraOperands rest
  end.

Definition extraSuffix (args : list string) : string :=
  match args with
  | [] => EmptyString
  | _ => "%!(EXTRA " +:+ extraOperands args +:+ ")"
  end.

(** What [fmt.Sprintf] prints from a directive that is not modelled
    below up to the end of the format: the flags, widths, precisions and
    operand indexes ([%9s], [%-s], [%.3s], [%[1]s]) and the verbs other
    than [s], [v] and [d] ([%x] and [%X] print hexadecimal, [%q] quotes,
    [%T] prints the type).  It is given the format from the [%] of the
    directive on, all the operands, and the number of operands consumed
    before the directive; nothing is assumed of it. *)
Class Fmt := {
  sprintfRest : string → list string → nat → string
}.

(** [fmt.Sprintf] on string operands, from operand number [argNum] on.
    Text is copied up to the next [%]; [%%] prints a [%]; [%s] and [%v]
    print the next operand; [%d], a verb strings do not support, prints
    [%!d(string=..)] around the next operand; a directive with no operand
    left prints [%!s(MISSING)] and consumes nothing; a format ending in
    [%] prints [%!(NOVERB)]; operands left over at the end print
    [%!(EXTRA string=.., string=..)].  Every other directive is left to
    [sprintfRest]. *)
Fixpoint SprintfFrom `{!Fmt} (format : string) (args : list string) (argNum : nat)
  : string :=
  match format with
  | EmptyString => extraSuffix (drop argNum args)
  | String c rest =>
      if Ascii.eqb c "%" then
        match rest with
        | EmptyString => "%!(NOVERB)" +:+ extraSuffix (drop argNum args)
        | String v rest' =>
            if Ascii.eqb v "%" then String "%" (SprintfFrom rest' args argNum)
            else if Ascii.eqb v "s" || Ascii.eqb v "v" then
              match args !! argNum with
              | Some a => a +:+ SprintfFrom rest' args (S argNum)
              | None => "%!" +:+ String v "(MISSING)" +:+ SprintfFrom rest' args argNum
              end
            else if Ascii.eqb v "d" then
              match args !! argNum with
              | Some a =>
                  "%!d(string=" +:+ a +:+ ")" +:+ SprintfFrom rest' args (S argNum)
              | None => "%!d(MISSING)" +:+ SprintfFrom rest' args argNum
              end
            else sprintfRest format args argNum
        end
      else String c (SprintfFrom rest args argNum)
  end.

Definition Sprintf `{!Fmt} (format : string) (args : list string) : string :=
  SprintfFrom format args 0.

(** Ranging over a map that may be nil: the nil map has no entries. *)
Definition entries (m : option (gmap string string)) : gmap string string :=
  default ∅ m.

(** [for k, v := range src { dst[k] = v }].  The iteration order of a Go
    map is unspecified; the writes are to distinct keys, so every order
    gives the same map. *)
Definition rangeAssign (src dst : gmap string string) : gmap string string :=
  map_fold (λ k v acc, <[k := v]> acc) dst src.

(** The same loop when the destination may be the nil map: a write to a
    nil map panics, a loop that writes nothing leaves it nil. *)
Definition rangeAssignTo (src : gmap string string)
    (dst : option (gmap string string)) : option (option (gmap string string)) :=
  match dst with
  | Some d => Some (Some (rangeAssign src d))
  | None => if decide (src = ∅) then Some None else None
  end.

(** [for i := 0; i < n; i++ { acc = append(acc, f(i)) }], with one unit of
    [fuel] per iteration. *)
Fixpoint appendLoop {A} (f : Z → A) (fuel : nat) (i : Z) (acc : list A) : list A :=
  match fuel with
  | O => acc
  | S fuel' => appendLoop f fuel' (i + 1) (acc ++ [f i])
  end.

(** The loop runs [n] times when [n] is positive and not at all
    otherwise. *)
Definition forAppend {A} (n : Z) (f : Z → A) (acc : list A) : list A :=
  appendLoop f (Z.to_nat n) 0 acc.

(** [for _, x := range xs { acc = append(acc, f(x)) }]. *)
Definition rangeAppend {A B} (f : A → B) (xs : list A) (acc : list B) : list B :=
  foldl (λ acc x, acc ++ [f x]) acc xs.

End Go.

(** ** Kubernetes API types (k8s.io/api, k8s.io/apimachinery) *)

(** The structs this file passes through without looking inside. *)
Class K8sPayload := {
  ResourceRequirements : Type;
  Probe : Type;
  Affinity : Type;
  Toleration : Type;
  PodSecurityContext : Type;
  (** the zero value [corev1.PodSecurityContext{}] *)
  PodSecurityContext_zero : PodSecurityContext;
  (** the type meta, spec and status of a PersistentVolumeClaim *)
  PersistentVolumeClaimBody : Type;
  (** the [FieldRef], [ResourceFieldRef] and [ConfigMapKeyRef] of an
      [EnvVarSource] *)
  EnvVarOtherRefs : Type;
  EnvVarOtherRefs_zero : EnvVarOtherRefs;
  (** the fields of an [ObjectMeta] other than name, namespace, UID,
      labels, annotations and owner references *)
  ObjectMetaRest : Type;
  ObjectMetaRest_zero : ObjectMetaRest;
  (** what a MinIOInstance holds besides the fields read in this file *)
  MinIOInstanceRest : Type
}.

Module metav1.
Section Types.
Context `{!K8sPayload}.

Record OwnerReference := {
  OwnerReference_APIVersion : string;
  OwnerReference_Kind : string;
  OwnerReference_Name : string;
  OwnerReference_UID : string;
  OwnerReference_Controller : option bool;
  OwnerReference_BlockOwnerDeletion : option bool
}.

Record ObjectMeta := {
  Name : string;
  Namespace : string;
  UID : string;
  Labels : option (gmap string string);
  Annotations : option (gmap string string);
  OwnerReferences : list OwnerReference;
  ObjectMeta_Rest : ObjectMetaRest
}.

(** [metav1.ObjectMeta{}] *)
Definition ObjectMeta_zero : ObjectMeta :=
  {| Name := ""; Namespace := ""; UID := ""; Labels := None;
     Annotations := None; OwnerReferences := [];
     ObjectMeta_Rest := ObjectMetaRest_zero |}.

(** [meta.Labels = labels] and [meta.Annotations = annotations]. *)
Definition ObjectMeta_setLabels (meta : ObjectMeta)
    (labels : option (gmap string string)) : ObjectMeta :=
  {| Name := Name meta; Namespace := Namespace meta; UID := UID meta;
     Labels := labels; Annotations := Annotations meta;
     OwnerReferences := OwnerReferences meta;
     ObjectMeta_Rest := ObjectMeta_Rest meta |}.

Definition ObjectMeta_setAnnotations (meta : ObjectMeta)
    (annotations : option (gmap string string)) : ObjectMeta :=
  {| Name := Name meta; Namespace := Namespace meta; UID := UID meta;
     Labels := Labels meta; Annotations := annotations;
     OwnerReferences := OwnerReferences meta;
     ObjectMeta_Rest := ObjectMeta_Rest meta |}.

Record LabelSelector := {
  MatchLabels : option (gmap string string)
}.

Record GroupVersion := { Group : string; Version : string }.

Record GroupVersionKind := {
  GVK_Group : string; GVK_Version : string; GVK_Kind : string
}.

(** [GroupVersion.String]. *)
Definition GroupVersion_String (gv : GroupVersion) : string :=
  if String.eqb (Group gv) "" then Version gv
  else Group gv +:+ "/" +:+ Version gv.

(** [metav1.NewControllerRef]: the owner's name and UID under the given
    kind, marked as the controlling and deletion-blocking owner. *)
Definition NewControllerRef (owner : ObjectMeta) (gvk : GroupVersionKind)
  : OwnerReference :=
  {| OwnerReference_APIVersion :=
       GroupVersion_String {| Group := GVK_Group gvk; Version := GVK_Version gvk |};
     OwnerReference_Kind := GVK_Kind gvk;
     OwnerReference_Name := Name owner;
     OwnerReference_UID := UID owner;
     OwnerReference_Controller := Some true;
     OwnerReference_BlockOwnerDeletion := Some true |}.

End Types.
End metav1.

Module corev1.
Section Types.
Context `{!K8sPayload}.

Record LocalObjectReference := { LocalObjectReference_Name : string }.

Record SecretKeySelector := {
  SecretKeySelector_LocalObjectReference : LocalObjectReference;
  SecretKeySelector_Key : string;
  SecretKeySelector_Optional : option bool
}.

Record EnvVarSource := {
  SecretKeyRef : option SecretKeySelector;
  OtherRefs : EnvVarOtherRefs
}.

Record EnvVar := {
  EnvVar_Name : string;
  EnvVar_Value : string;
  EnvVar_ValueFrom : option EnvVarSource
}.

Record VolumeMount := {
  VolumeMount_Name : string;
  VolumeMount_MountPath : string
}.

Record ContainerPort := { ContainerPort_ContainerPort : Z }.

Record Container := {
  Container_Name : string;
  Container_Image : string;
  Container_Ports : list ContainerPort;
  Container_ImagePullPolicy : string;
  Container_VolumeMounts : list VolumeMount;
  Container_Args : list string;
  Container_Env : list EnvVar;
  Container_Resources : ResourceRequirements;
  Container_LivenessProbe : option Probe;
  Container_ReadinessProbe : option Probe
}.

Record KeyToPath := { Key : string; Path : string }.

Record SecretProjection := {
  SecretProjection_LocalObjectReference : LocalObjectReference;
  Items : list KeyToPath
}.

Record VolumeProjection := { Secret : option SecretProjection }.

Record ProjectedVolumeSource := { Sources : list VolumeProjection }.

Record EmptyDirVolumeSource := { Medium : string }.

Record VolumeSource := {
  EmptyDir : option EmptyDirVolumeSource;
  Projected : option ProjectedVolumeSource
}.

Record Volume := {
  Volume_Name : string;
  Volume_VolumeSource : VolumeSource
}.

Record PersistentVolumeClaim := {
  PersistentVolumeClaim_ObjectMeta : metav1.ObjectMeta;
  PersistentVolumeClaim_Body : PersistentVolumeClaimBody
}.

(** The promoted field [pvc.Name]. *)
Definition PersistentVolumeClaim_Name (pvc : PersistentVolumeClaim) : string :=
  metav1.Name (PersistentVolumeClaim_ObjectMeta pvc).

(** [pvc.Name = name] on a copy of the struct. *)
Definition PersistentVolumeClaim_setName (pvc : PersistentVolumeClaim)
    (name : string) : PersistentVolumeClaim :=
  let m := PersistentVolumeClaim_ObjectMeta pvc in
  {| PersistentVolumeClaim_ObjectMeta :=
       {| metav1.Name := name;
          metav1.Namespace := metav1.Namespace m;
          metav1.UID := metav1.UID m;
          metav1.Labels := metav1.Labels m;
          metav1.Annotations := metav1.Annotations m;
          metav1.OwnerReferences := metav1.OwnerReferences m;
          metav1.ObjectMeta_Rest := metav1.ObjectMeta_Rest m |};
     PersistentVolumeClaim_Body := PersistentVolumeClaim_Body pvc |}.

Record PodSpec := {
  Containers : list Container;
  Volumes : list Volume;
  ImagePullSecrets : list LocalObjectReference;
  RestartPolicy : string;
  PodSpec_Affinity : option Affinity;
  SchedulerName : string;
  PodSpec_Tolerations : list Toleration;
  PodSpec_SecurityContext : option PodSecurityContext
}.

Record PodTemplateSpec := {
  PodTemplateSpec_ObjectMeta : metav1.ObjectMeta;
  PodTemplateSpec_Spec : PodSpec
}.

Definition RestartPolicyAlways : string := "Always".

End Types.
End corev1.

Module appsv1.
Section Types.
Context `{!K8sPayload}.

Record StatefulSetUpdateStrategy := { StatefulSetUpdateStrategy_Type : string }.

Record StatefulSetSpec := {
  UpdateStrategy : StatefulSetUpdateStrategy;
  PodManagementPolicy : string;
  Selector : option metav1.LabelSelector;
  ServiceName : string;
  Replicas : option Z;
  Template : corev1.PodTemplateSpec;
  VolumeClaimTemplates : list corev1.PersistentVolumeClaim
}.

Record StatefulSet := {
  StatefulSet_ObjectMeta : metav1.ObjectMeta;
  StatefulSet_Spec : StatefulSetSpec
}.

End Types.
End appsv1.

(** ** The MinIOInstance resource (pkg/apis/operator.min.io/v1)

    The package that declares the resource type, its constants and its
    accessor methods is not among the sources at hand.  The struct fields
    are the ones this file reads; constants and derived accessors are the
    fields of [Package]; the presence tests are modelled from the
    specification. *)

Module miniov1.
Section Types.
Context `{!K8sPayload}.

Record Zone := {
  Zone_Name : string;
  Servers : Z
}.

Record LocalCertificateReference := {
  LocalCertificateReference_Name : string;
  LocalCertificateReference_Type : string
}.

Record MinIOInstanceScheduler := { MinIOInstanceScheduler_Name : string }.

Record MinIOInstanceSpec := {
  Image : string;
  Zones : list Zone;
  VolumesPerServer : Z;
  VolumeClaimTemplate : option corev1.PersistentVolumeClaim;
  Env : list corev1.EnvVar;
  CredsSecret : option corev1.LocalObjectReference;
  Metadata : option metav1.ObjectMeta;
  Selector : option metav1.LabelSelector;
  ExternalCertSecret : option LocalCertificateReference;
  Resources : ResourceRequirements;
  Liveness : option Probe;
  Readiness : option Probe;
  PodManagementPolicy : string;
  ImagePullSecret : corev1.LocalObjectReference;
  Affinity : option Affinity;
  Tolerations : list Toleration;
  SecurityContext : option PodSecurityContext
}.

Record MinIOInstance := {
  ObjectMeta : metav1.ObjectMeta;
  Scheduler : MinIOInstanceScheduler;
  Spec : MinIOInstanceSpec;
  Rest : MinIOInstanceRest
}.

(** The promoted fields [mi.Name] and [mi.Namespace]. *)
Definition Name (mi : MinIOInstance) : string := metav1.Name (ObjectMeta mi).
Definition Namespace (mi : MinIOInstance) : string := metav1.Namespace (ObjectMeta mi).

(** Package constants and the accessors whose result the compiler uses
    as a black box. *)
Class Package := {
  KESPort : Z;
  KESMinIOKey : string;
  MinIOVolumeName : string;
  MinIOVolumeMountPath : string;
  Scheme : string;
  MinIOServerName : string;
  MinIOPort : Z;
  DefaultImagePullPolicy : string;
  DefaultUpdateStrategy : string;
  InstanceLabel : string;
  SchemeGroupVersion : metav1.GroupVersion;
  MinIOCRDResourceKind : string;
  HasKESEnabled : MinIOInstance → bool;
  RequiresAutoCertSetup : MinIOInstance → bool;
  KESServiceHost : MinIOInstance → string;
  MinIOTLSSecretName : MinIOInstance → string;
  MinIOClientTLSSecretName : MinIOInstance → string;
  KESTLSSecretName : MinIOInstance → string;
  MinIOStatefulSetName : MinIOInstance → string;
  VolumePath : MinIOInstance → string;
  MinIOHosts : MinIOInstance → list string;
  MinIOReplicas : MinIOInstance → Z
}.

(** Modelled from the spec: [HasCredsSecret] is missing; the spec's
    "has a named credential secret" is the presence of the optional
    credential-secret reference. *)
Definition HasCredsSecret (mi : MinIOInstance) : bool :=
  bool_decide (is_Some (CredsSecret (Spec mi))).

(** Modelled from the spec: [HasMetadata] is missing; the spec's "has
    custom metadata" is the presence of the optional user metadata. *)
Definition HasMetadata (mi : MinIOInstance) : bool :=
  bool_decide (is_Some (Metadata (Spec mi))).

(** Modelled from the spec: [HasSelector] is missing; the spec's "has
    custom selector" is the presence of the optional user selector. *)
Definition HasSelector (mi : MinIOInstance) : bool :=
  bool_decide (is_Some (Selector (Spec mi))).

(** Modelled from the spec: [RequiresExternalCertSetup] is missing; the
    spec's externally-supplied certificate mode is the presence of the
    optional external certificate secret reference. *)
Definition RequiresExternalCertSetup (mi : MinIOInstance) : bool :=
  bool_decide (is_Some (ExternalCertSecret (Spec mi))).

(** Modelled from the spec: [MinIOPodLabels] is missing; the spec's
    mandatory instance-identity label, the one label the StatefulSet
    selector uses. *)
Definition MinIOPodLabels `{!Package} (mi : MinIOInstance) : gmap string string :=
  {[ InstanceLabel := MinIOStatefulSetName mi ]}.

End Types.
End miniov1.

(** ** The compiler (pkg/resources/statefulsets) *)

Module statefulsets.
Import miniov1.
Section Compiler.
Context `{!K8sPayload} `{!Package} `{!Go.Fmt}.

(** Returns the MinIO environment variables set in configuration. *)
Definition minioEnvironmentVars (mi : MinIOInstance) : option (list corev1.EnvVar) :=
  let envVars := [] in
  let envVars := Go.rangeAppend id (Env (Spec mi)) envVars in
  envVars ←
    (if HasCredsSecret mi then
       creds ← CredsSecret (Spec mi);
       let secretName := corev1.LocalObjectReference_Name creds in
       Some (envVars ++ [
         {| corev1.EnvVar_Name := "MINIO_ACCESS_KEY";
            corev1.EnvVar_Value := "";
            corev1.EnvVar_ValueFrom := Some
              {| corev1.SecretKeyRef := Some
                   {| corev1.SecretKeySelector_LocalObjectReference :=
                        {| corev1.LocalObjectReference_Name := secretName |};
                      corev1.SecretKeySelector_Key := "accesskey";
                      corev1.SecretKeySelector_Optional := None |};
                 corev1.OtherRefs := EnvVarOtherRefs_zero |} |};
         {| corev1.EnvVar_Name := "MINIO_SECRET_KEY";
            corev1.EnvVar_Value := "";
            corev1.EnvVar_ValueFrom := Some
              {| corev1.SecretKeyRef := Some
                   {| corev1.SecretKeySelector_LocalObjectReference :=
                        {| corev1.LocalObjectReference_Name := secretName |};
                      corev1.SecretKeySelector_Key := "secretkey";
                      corev1.SecretKeySelector_Optional := None |};
                 corev1.OtherRefs := EnvVarOtherRefs_zero |} |} ])
     else Some envVars);
  let envVars :=
    if HasKESEnabled mi then
      envVars ++ [
        {| corev1.EnvVar_Name := "MINIO_KMS_KES_ENDPOINT";
           corev1.EnvVar_Value :=
             "https://" +:+ Go.JoinHostPort (KESServiceHost mi) (Go.Itoa KESPort);
           corev1.EnvVar_ValueFrom := None |};
        {| corev1.EnvVar_Name := "MINIO_KMS_KES_CERT_FILE";
           corev1.EnvVar_Value := "/root/.minio/certs/client.crt";
           corev1.EnvVar_ValueFrom := None |};
        {| corev1.EnvVar_Name := "MINIO_KMS_KES_KEY_FILE";
           corev1.EnvVar_Value := "/root/.minio/certs/client.key";
           corev1.EnvVar_ValueFrom := None |};
        {| corev1.EnvVar_Name := "MINIO_KMS_KES_CA_PATH";
           corev1.EnvVar_Value := "/root/.minio/certs/CAs/server.crt";
           corev1.EnvVar_ValueFrom := None |};
        {| corev1.EnvVar_Name := "MINIO_KMS_KES_KEY_NAME";
           corev1.EnvVar_Value := KESMinIOKey;
           corev1.EnvVar_ValueFrom := None |} ]
    else envVars in
  Some envVars.

(** Returns the MinIO pods metadata set in configuration.  The copy
    [meta = *mi.Spec.Metadata] shares the user's label map, so the writes
    below also reach the resource; nothing reads the resource's labels
    after them, and the result is the map as written. *)
Definition minioMetadata (mi : MinIOInstance) : option metav1.ObjectMeta :=
  let meta := metav1.ObjectMeta_zero in
  meta ← (if HasMetadata mi then Metadata (Spec mi) else Some meta);
  let meta :=
    match metav1.Labels meta with
    | None => metav1.ObjectMeta_setLabels meta (Some ∅)
    | Some _ => meta
    end in
  let meta :=
    match metav1.Annotations meta with
    | None => metav1.ObjectMeta_setAnnotations meta (Some ∅)
    | Some _ => meta
    end in
  labels ← Go.rangeAssignTo (MinIOPodLabels mi) (metav1.Labels meta);
  labels ←
    (if HasSelector mi then
       selector ← Selector (Spec mi);
       Go.rangeAssignTo (Go.entries (metav1.MatchLabels selector)) labels
     else Some labels);
  Some (metav1.ObjectMeta_setLabels meta labels).

(** Builds the volume mounts for MinIO container. *)
Definition volumeMounts (mi : MinIOInstance) : list corev1.VolumeMount :=
  let mounts := [] in
  let name := MinIOVolumeName in
  let name :=
    match VolumeClaimTemplate (Spec mi) with
    | Some template => corev1.PersistentVolumeClaim_Name template
    | None => name
    end in
  let mounts :=
    if VolumesPerServer (Spec mi) =? 1 then
      mounts ++ [
        {| corev1.VolumeMount_Name := name +:+ Go.Itoa 0;
           corev1.VolumeMount_MountPath := MinIOVolumeMountPath |} ]
    else
      Go.forAppend (VolumesPerServer (Spec mi))
        (λ i, {| corev1.VolumeMount_Name := name +:+ Go.Itoa i;
                 corev1.VolumeMount_MountPath := MinIOVolumeMountPath +:+ Go.Itoa i |})
        mounts in
  let mounts :=
    if RequiresAutoCertSetup mi || RequiresExternalCertSetup mi then
      mounts ++ [
        {| corev1.VolumeMount_Name := MinIOTLSSecretName mi;
           corev1.VolumeMount_MountPath := "/root/.minio/certs" |} ]
    else mounts in
  mounts.

(** Builds the MinIO container for a MinIOInstance. *)
Definition minioServerContainer (mi : MinIOInstance) (serviceName : string)
  : option corev1.Container :=
  let args := ["server"%string] in
  zone0 ← Zones (Spec mi) !! 0%nat;
  let args :=
    if Servers zone0 =? 1 then
      args ++ [MinIOVolumeMountPath]
    else
      let hosts := MinIOHosts mi in
      Go.rangeAppend
        (λ h, Go.Sprintf ("%s://" +:+ h +:+ "%s") [Scheme; VolumePath mi])
        hosts args in
  let mounts := volumeMounts mi in
  env ← minioEnvironmentVars mi;
  Some
    {| corev1.Container_Name := MinIOServerName;
       corev1.Container_Image := Image (Spec mi);
       corev1.Container_Ports :=
         [ {| corev1.ContainerPort_ContainerPort := MinIOPort |} ];
       corev1.Container_ImagePullPolicy := DefaultImagePullPolicy;
       corev1.Container_VolumeMounts := mounts;
       corev1.Container_Args := args;
       corev1.Container_Env := env;
       corev1.Container_Resources := Resources (Spec mi);
       corev1.Container_LivenessProbe := Liveness (Spec mi);
       corev1.Container_ReadinessProbe := Readiness (Spec mi) |}.

(** Builds the tolerations for a MinIOInstance. *)
Definition minioTolerations (mi : MinIOInstance) : list Toleration :=
  let tolerations := [] in
  let tolerations := Go.rangeAppend id (Tolerations (Spec mi)) tolerations in
  tolerations.

(** Builds the security contexts for a MinIOInstance. *)
Definition minioSecurityContext (mi : MinIOInstance) : option PodSecurityContext :=
  let securityContext := PodSecurityContext_zero in
  let securityContext :=
    match SecurityContext (Spec mi) with
    | Some sc => sc
    | None => securityContext
    end in
  Some securityContext.

Definition getVolumesForContainer (mi : MinIOInstance) : list corev1.Volume :=
  let podVolumes := [] in
  match VolumeClaimTemplate (Spec mi) with
  | None =>
      Go.rangeAppend
        (λ z, {| corev1.Volume_Name := Zone_Name z;
                 corev1.Volume_VolumeSource :=
                   {| corev1.EmptyDir := Some {| corev1.Medium := "" |};
                      corev1.Projected := None |} |})
        (Zones (Spec mi)) podVolumes
  | Some _ => podVolumes
  end.

(** The loop that instantiates the volume claim templates:
    [for i := 0; i < n; i++ { pvClaim.Name = name + strconv.Itoa(i);
    templates = append(templates, pvClaim) }].  [pvClaim] is a struct
    value: the assignment changes the loop's own copy, and [append]
    stores a copy of it. *)
Fixpoint claimLoop (fuel : nat) (i : Z) (name : string)
    (pvClaim : corev1.PersistentVolumeClaim)
    (templates : list corev1.PersistentVolumeClaim)
  : list corev1.PersistentVolumeClaim :=
  match fuel with
  | O => templates
  | S fuel' =>
      let pvClaim := corev1.PersistentVolumeClaim_setName pvClaim (name +:+ Go.Itoa i) in
      claimLoop fuel' (i + 1) name pvClaim (templates ++ [pvClaim])
  end.

(** NewForMinIO creates a new StatefulSet for the given Cluster. *)
Definition NewForMinIO (mi : MinIOInstance) (serviceName : string)
  : option appsv1.StatefulSet :=
  let secretName := EmptyString in
  let podVolumes := getVolumesForContainer mi in
  let replicas := MinIOReplicas mi in
  let keyPaths := [
    {| corev1.Key := "public.crt"; corev1.Path := "public.crt" |};
    {| corev1.Key := "private.key"; corev1.Path := "private.key" |};
    {| corev1.Key := "public.crt"; corev1.Path := "CAs/public.crt" |} ] in
  let MinIOCertKeyPaths := [
    {| corev1.Key := "public.crt"; corev1.Path := "client.crt" |};
    {| corev1.Key := "private.key"; corev1.Path := "client.key" |} ] in
  let KESCertKeyPaths := [
    {| corev1.Key := "public.crt"; corev1.Path := "CAs/server.crt" |} ] in
  '(secretName, keyPaths) ←
    (if RequiresAutoCertSetup mi then
       Some (MinIOTLSSecretName mi, keyPaths)
     else if RequiresExternalCertSetup mi then
       external ← ExternalCertSecret (Spec mi);
       let secretName := LocalCertificateReference_Name external in
       let keyPaths :=
         if String.eqb (LocalCertificateReference_Type external) "kubernetes.io/tls" then
           [ {| corev1.Key := "tls.crt"; corev1.Path := "public.crt" |};
             {| corev1.Key := "tls.key"; corev1.Path := "private.key" |};
             {| corev1.Key := "tls.crt"; corev1.Path := "CAs/public.crt" |} ]
         else if String.eqb (LocalCertificateReference_Type external)
                   "cert-manager.io/v1alpha2" then
           [ {| corev1.Key := "tls.crt"; corev1.Path := "public.crt" |};
             {| corev1.Key := "tls.key"; corev1.Path := "private.key" |};
             {| corev1.Key := "ca.crt"; corev1.Path := "CAs/public.crt" |} ]
         else keyPaths in
       Some (secretName, keyPaths)
     else Some (secretName, keyPaths));
  let podVolumes :=
    if RequiresAutoCertSetup mi || RequiresExternalCertSetup mi then
      let sources := [
        {| corev1.Secret := Some
             {| corev1.SecretProjection_LocalObjectReference :=
                  {| corev1.LocalObjectReference_Name := secretName |};
                corev1.Items := keyPaths |} |} ] in
      let sources :=
        if HasKESEnabled mi then
          sources ++ [
            {| corev1.Secret := Some
                 {| corev1.SecretProjection_LocalObjectReference :=
                      {| corev1.LocalObjectReference_Name := MinIOClientTLSSecretName mi |};
                    corev1.Items := MinIOCertKeyPaths |} |};
            {| corev1.Secret := Some
                 {| corev1.SecretProjection_LocalObjectReference :=
                      {| corev1.LocalObjectReference_Name := KESTLSSecretName mi |};
                    corev1.Items := KESCertKeyPaths |} |} ]
        else sources in
      podVolumes ++ [
        {| corev1.Volume_Name := MinIOTLSSecretName mi;
           corev1.Volume_VolumeSource :=
             {| corev1.EmptyDir := None;
                corev1.Projected := Some {| corev1.Sources := sources |} |} |} ]
    else podVolumes in
  container ← minioServerContainer mi serviceName;
  let containers := [container] in
  metadata ← minioMetadata mi;
  let ss_ObjectMeta :=
    {| metav1.Name := Name mi;
       metav1.Namespace := Namespace mi;
       metav1.UID := "";
       metav1.Labels := None;
       metav1.Annotations := None;
       metav1.OwnerReferences := [
         metav1.NewControllerRef (ObjectMeta mi)
           {| metav1.GVK_Group := metav1.Group SchemeGroupVersion;
              metav1.GVK_Version := metav1.Version SchemeGroupVersion;
              metav1.GVK_Kind := MinIOCRDResourceKind |} ];
       metav1.ObjectMeta_Rest := ObjectMetaRest_zero |} in
  let ss_VolumeClaimTemplates := [] in
  let ss_VolumeClaimTemplates :=
    match VolumeClaimTemplate (Spec mi) with
    | Some template =>
        let pvClaim := template in
        let name := corev1.PersistentVolumeClaim_Name pvClaim in
        claimLoop (Z.to_nat (VolumesPerServer (Spec mi))) 0 name pvClaim
          ss_VolumeClaimTemplates
    | None => ss_VolumeClaimTemplates
    end in
  Some
    {| appsv1.StatefulSet_ObjectMeta := ss_ObjectMeta;
       appsv1.StatefulSet_Spec :=
         {| appsv1.UpdateStrategy :=
              {| appsv1.StatefulSetUpdateStrategy_Type := DefaultUpdateStrategy |};
            appsv1.PodManagementPolicy := PodManagementPolicy (Spec mi);
            appsv1.Selector := Some
              {| metav1.MatchLabels := Some
                   {[ InstanceLabel := MinIOStatefulSetName mi ]} |};
            appsv1.ServiceName := serviceName;
            appsv1.Replicas := Some replicas;
            appsv1.Template :=
              {| corev1.PodTemplateSpec_ObjectMeta := metadata;
                 corev1.PodTemplateSpec_Spec :=
                   {| corev1.Containers := containers;
                      corev1.Volumes := podVolumes;
                      corev1.ImagePullSecrets := [ImagePullSecret (Spec mi)];
                      corev1.RestartPolicy := corev1.RestartPolicyAlways;
                      corev1.PodSpec_Affinity := Affinity (Spec mi);
                      corev1.SchedulerName :=
                        MinIOInstanceScheduler_Name (Scheduler mi);
                      corev1.PodSpec_Tolerations := minioTolerations mi;
                      corev1.PodSpec_SecurityContext := minioSecurityContext mi |} |};
            appsv1.VolumeClaimTemplates := ss_VolumeClaimTemplates |} |}.

(** *** Reading the descriptor *)

Definition podSpec (ss : appsv1.StatefulSet) : corev1.PodSpec :=
  corev1.PodTemplateSpec_Spec (appsv1.Template (appsv1.StatefulSet_Spec ss)).

Definition podVolumes (ss : appsv1.StatefulSet) : list corev1.Volume :=
  corev1.Volumes (podSpec ss).

Definition templateLabels (ss : appsv1.StatefulSet) : gmap string string :=
  Go.entries (metav1.Labels
    (corev1.PodTemplateSpec_ObjectMeta (appsv1.Template (appsv1.StatefulSet_Spec ss)))).

Definition selectorLabels (ss : appsv1.StatefulSet) : gmap string string :=
  match appsv1.Selector (appsv1.StatefulSet_Spec ss) with
  | Some selector => Go.entries (metav1.MatchLabels selector)
  | None => ∅
  end.

Definition claimTemplates (ss : appsv1.StatefulSet) : list corev1.PersistentVolumeClaim :=
  appsv1.VolumeClaimTemplates (appsv1.StatefulSet_Spec ss).

(** *** The label map the pod metadata shares with the resource

    In [minioMetadata] the copy [meta = *mi.Spec.Metadata] copies the
    struct and with it the reference to the user's label map, not the
    map: when the user metadata has a label map, [meta.Labels[k] = v]
    writes into the resource's own map.  The functions below run
    [minioMetadata] with that map as state: they return the metadata and
    the resource as the call leaves it.  The match labels of the user
    selector are taken to be a map of their own, as they are in a
    resource decoded from the API. *)

(** The resource once its metadata label map holds [labels]. *)
Definition storeLabels (mi : MinIOInstance) (labels : option (gmap string string))
  : MinIOInstance :=
  let s := Spec mi in
  {| ObjectMeta := ObjectMeta mi;
     Scheduler := Scheduler mi;
     Spec :=
       {| Image := Image s; Zones := Zones s;
          VolumesPerServer := VolumesPerServer s;
          VolumeClaimTemplate := VolumeClaimTemplate s;
          Env := Env s; CredsSecret := CredsSecret s;
          Metadata :=
            match Metadata s with
            | Some user => Some (metav1.ObjectMeta_setLabels user labels)
            | None => None
            end;
          Selector := Selector s; ExternalCertSecret := ExternalCertSecret s;
          Resources := Resources s; Liveness := Liveness s;
          Readiness := Readiness s;
          PodManagementPolicy := PodManagementPolicy s;
          ImagePullSecret := ImagePullSecret s; Affinity := Affinity s;
          Tolerations := Tolerations s; SecurityContext := SecurityContext s |};
     Rest := Rest mi |}.

(** [for k, v := range src { meta.Labels[k] = v }] where [shared] tells
    whether [meta.Labels] is the resource's map. *)
Definition writeLabels (src : gmap string string)
    (dst : option (gmap string string)) (shared : bool) (mi : MinIOInstance)
  : option (option (gmap string string) * MinIOInstance) :=
  labels ← Go.rangeAssignTo src dst;
  Some (labels, if shared then storeLabels mi labels else mi).

Definition minioMetadataInPlace (mi : MinIOInstance)
  : option (metav1.ObjectMeta * MinIOInstance) :=
  let meta := metav1.ObjectMeta_zero in
  meta ← (if HasMetadata mi then Metadata (Spec mi) else Some meta);
  let '(meta, shared) :=
    match metav1.Labels meta with
    | None => (metav1.ObjectMeta_setLabels meta (Some ∅), false)
    | Some _ => (meta, HasMetadata mi)
    end in
  let meta :=
    match metav1.Annotations meta with
    | None => metav1.ObjectMeta_setAnnotations meta (Some ∅)
    | Some _ => meta
    end in
  let podLabels := MinIOPodLabels mi in
  '(labels, mi) ← writeLabels podLabels (metav1.Labels meta) shared mi;
  '(labels, mi) ←
    (if HasSelector mi then
       selector ← Selector (Spec mi);
       writeLabels (Go.entries (metav1.MatchLabels selector)) labels shared mi
     else Some (labels, mi));
  Some (metav1.ObjectMeta_setLabels meta labels, mi).

End Compiler.
End statefulsets.

(** ** The vocabulary of the specification *)

Section Vocabulary.
Import miniov1 statefulsets.
Context `{!K8sPayload} `{!Package} `{!Go.Fmt}.

(** Certificate material is required: self-signed or external. *)
Definition certificatesRequired (mi : MinIOInstance) : bool :=
  RequiresAutoCertSetup mi || RequiresExternalCertSetup mi.

(** An env entry that refers to a key of a secret and carries no value. *)
Definition secretReferenceEnv (name secret key : string) : corev1.EnvVar :=
  {| corev1.EnvVar_Name := name;
     corev1.EnvVar_Value := "";
     corev1.EnvVar_ValueFrom := Some
       {| corev1.SecretKeyRef := Some
            {| corev1.SecretKeySelector_LocalObjectReference :=
                 {| corev1.LocalObjectReference_Name := secret |};
               corev1.SecretKeySelector_Key := key;
               corev1.SecretKeySelector_Optional := None |};
          corev1.OtherRefs := EnvVarOtherRefs_zero |} |}.

(** An env entry with a literal value. *)
Definition literalEnv (name value : string) : corev1.EnvVar :=
  {| corev1.EnvVar_Name := name;
     corev1.EnvVar_Value := value;
     corev1.EnvVar_ValueFrom := None |}.

(** The names of the key-service entries. *)
Definition kmsNames : list string :=
  [ "MINIO_KMS_KES_ENDPOINT"; "MINIO_KMS_KES_CERT_FILE"; "MINIO_KMS_KES_KEY_FILE";
    "MINIO_KMS_KES_CA_PATH"; "MINIO_KMS_KES_KEY_NAME" ]%string.

(** The base name shared by storage mounts and volume claim templates. *)
Definition storageBaseName (mi : MinIOInstance) : string :=
  match VolumeClaimTemplate (Spec mi) with
  | Some template => corev1.PersistentVolumeClaim_Name template
  | None => MinIOVolumeName
  end.

(** The labels of the user metadata and of the user selector. *)
Definition userLabels (mi : MinIOInstance) : gmap string string :=
  match Metadata (Spec mi) with
  | Some meta => Go.entries (metav1.Labels meta)
  | None => ∅
  end.

Definition userMatchLabels (mi : MinIOInstance) : gmap string string :=
  match Selector (Spec mi) with
  | Some selector => Go.entries (metav1.MatchLabels selector)
  | None => ∅
  end.

(** A projected source: a secret and the keys it projects. *)
Definition secretSource (secret : string) (items : list corev1.KeyToPath)
  : corev1.VolumeProjection :=
  {| corev1.Secret := Some
       {| corev1.SecretProjection_LocalObjectReference :=
            {| corev1.LocalObjectReference_Name := secret |};
          corev1.Items := items |} |}.

Definition keyToPath (key path : string) : corev1.KeyToPath :=
  {| corev1.Key := key; corev1.Path := path |}.

(** A pod volume projected from secrets, and an empty-dir volume. *)
Definition projectedVolume (name : string) (sources : list corev1.VolumeProjection)
  : corev1.Volume :=
  {| corev1.Volume_Name := name;
     corev1.Volume_VolumeSource :=
       {| corev1.EmptyDir := None;
          corev1.Projected := Some {| corev1.Sources := sources |} |} |}.

Definition emptyDirVolume (name : string) : corev1.Volume :=
  {| corev1.Volume_Name := name;
     corev1.Volume_VolumeSource :=
       {| corev1.EmptyDir := Some {| corev1.Medium := "" |};
          corev1.Projected := None |} |}.

(** The key names of the three conventions for the primary certificate
    secret. *)
Definition selfSignedKeys : list corev1.KeyToPath :=
  [ keyToPath "public.crt" "public.crt";
    keyToPath "private.key" "private.key";
    keyToPath "public.crt" "CAs/public.crt" ].

Definition kubernetesTLSKeys : list corev1.KeyToPath :=
  [ keyToPath "tls.crt" "public.crt";
    keyToPath "tls.key" "private.key";
    keyToPath "tls.crt" "CAs/public.crt" ].

Definition certManagerKeys : list corev1.KeyToPath :=
  [ keyToPath "tls.crt" "public.crt";
    keyToPath "tls.key" "private.key";
    keyToPath "ca.crt" "CAs/public.crt" ].

(** The primary certificate source: the self-signed secret, or else the
    external secret under the key names of its declared type. *)
Definition primaryCertificate (mi : MinIOInstance) : corev1.VolumeProjection :=
  if RequiresAutoCertSetup mi then
    secretSource (MinIOTLSSecretName mi) selfSignedKeys
  else
    match ExternalCertSecret (Spec mi) with
    | Some external =>
        secretSource (LocalCertificateReference_Name external)
          (if String.eqb (LocalCertificateReference_Type external) "kubernetes.io/tls"
           then kubernetesTLSKeys
           else if String.eqb (LocalCertificateReference_Type external)
                     "cert-manager.io/v1alpha2"
           then certManagerKeys
           else selfSignedKeys)
    | None => secretSource "" selfSignedKeys
    end.

(** The two sources added for the key service. *)
Definition keyServiceSources (mi : MinIOInstance) : list corev1.VolumeProjection :=
  [ secretSource (MinIOClientTLSSecretName mi)
      [ keyToPath "public.crt" "client.crt"; keyToPath "private.key" "client.key" ];
    secretSource (KESTLSSecretName mi) [ keyToPath "public.crt" "CAs/server.crt" ] ].

(** The mount of the certificate directory. *)
Definition certificateMount (mi : MinIOInstance) : corev1.VolumeMount :=
  {| corev1.VolumeMount_Name := MinIOTLSSecretName mi;
     corev1.VolumeMount_MountPath := "/root/.minio/certs" |}.

(** The peer URL of a host, as the container composer formats it. *)
Definition peerURL (mi : MinIOInstance) (host : string) : string :=
  Go.Sprintf ("%s://" +:+ host +:+ "%s") [Scheme; VolumePath mi].

(** A field of the container is read off the resource: some function of
    the resource alone gives it, whatever the package. *)
Definition readFromSpec {A} (field : corev1.Container → A) : Prop :=
  ∃ read : MinIOInstance → A,
    ∀ (P : Package) (mi : MinIOInstance) (serviceName : string) c,
      @minioServerContainer _ P _ mi serviceName = Some c → field c = read mi.

End Vocabulary.

(** ** What is read off a descriptor *)

Section Observations.
Import miniov1 statefulsets.
Context `{!K8sPayload} `{!Package} `{!Go.Fmt}.

(** The file names a volume projects, source by source. *)
Definition projectedPaths (v : corev1.Volume) : list string :=
  match corev1.Projected (corev1.Volume_VolumeSource v) with
  | Some projected =>
      flat_map
        (λ source,
           match corev1.Secret source with
           | Some secret => map corev1.Path (corev1.Items secret)
           | None => []
           end)
        (corev1.Sources projected)
  | None => []
  end.

(** The entry that decides the value of a variable: when a name occurs
    more than once in a container's environment the last entry holds. *)
Definition effectiveEnv (name : string) (env : list corev1.EnvVar)
  : option corev1.EnvVar :=
  last (filter (λ e, corev1.EnvVar_Name e = name) env).

(** The user metadata, or the zero value when there is none. *)
Definition userMetadata (mi : MinIOInstance) : metav1.ObjectMeta :=
  default metav1.ObjectMeta_zero (Metadata (Spec mi)).

(** The storage mounts: the mounts but for the certificate mount. *)
Definition storageMounts (mi : MinIOInstance) (c : corev1.Container)
  : list corev1.VolumeMount :=
  take (Z.to_nat (VolumesPerServer (Spec mi))) (corev1.Container_VolumeMounts c).

(** A descriptor but for its service name. *)
Definition exceptServiceName (ss : appsv1.StatefulSet) :=
  let spec := appsv1.StatefulSet_Spec ss in
  (appsv1.StatefulSet_ObjectMeta ss, appsv1.UpdateStrategy spec,
   appsv1.PodManagementPolicy spec, appsv1.Selector spec, appsv1.Replicas spec,
   appsv1.Template spec, appsv1.VolumeClaimTemplates spec).

End Observations.

(** ** Sample resources

    A concrete payload, package and a handful of resources, on which the
    compiler is run below.  What the sample package returns is of no
    consequence to the general statements, which hold for every package. *)

Module Samples.

(** Opaque payloads are trivial; besides the fields read by this file a
    resource holds the self-signed request flag and the key-service
    flag. *)
#[export] Instance payload : K8sPayload := {|
  ResourceRequirements := unit;
  Probe := unit;
  Affinity := unit;
  Toleration := unit;
  PodSecurityContext := unit;
  PodSecurityContext_zero := tt;
  PersistentVolumeClaimBody := unit;
  EnvVarOtherRefs := unit;
  EnvVarOtherRefs_zero := tt;
  ObjectMetaRest := unit;
  ObjectMetaRest_zero := tt;
  MinIOInstanceRest := bool * bool
|}.

(** The directives of [fmt] that are left abstract do not occur in the
    samples; any function will do for them. *)
#[export] Instance fmt : Go.Fmt := {| Go.sprintfRest := λ _ _ _, EmptyString |}.

Import miniov1.

Definition package (port : Z) (pullPolicy : string) : Package := {|
  KESPort := 7373;
  KESMinIOKey := "my-minio-key";
  MinIOVolumeName := "export";
  MinIOVolumeMountPath := "/export";
  Scheme := "http";
  MinIOServerName := "minio";
  MinIOPort := port;
  DefaultImagePullPolicy := pullPolicy;
  DefaultUpdateStrategy := "RollingUpdate";
  InstanceLabel := "v1.min.io/instance";
  SchemeGroupVersion := {| metav1.Group := "operator.min.io"; metav1.Version := "v1" |};
  MinIOCRDResourceKind := "MinIOInstance";
  HasKESEnabled := λ mi, snd (Rest mi);
  RequiresAutoCertSetup := λ mi, fst (Rest mi);
  KESServiceHost := λ mi, Name mi +:+ "-kes-hl-svc";
  MinIOTLSSecretName := λ mi, Name mi +:+ "-tls";
  MinIOClientTLSSecretName := λ mi, Name mi +:+ "-client-tls";
  KESTLSSecretName := λ mi, Name mi +:+ "-kes-tls";
  MinIOStatefulSetName := λ mi, Name mi;
  VolumePath := λ mi, "/export";
  MinIOHosts := λ mi,
    flat_map (λ z, map (λ i, Name mi +:+ "-" +:+ Go.Itoa i +:+ "." +:+ Zone_Name z)
                       (seqZ 0 (Servers z)))
             (Zones (Spec mi));
  MinIOReplicas := λ mi, foldr (λ z n, Servers z + n) 0 (Zones (Spec mi))
|}.

#[export] Instance defaultPackage : Package := package 9000 "Always".

Definition meta (name : string) : metav1.ObjectMeta :=
  {| metav1.Name := name; metav1.Namespace := "default"; metav1.UID := "uid-1";
     metav1.Labels := None; metav1.Annotations := None;
     metav1.OwnerReferences := []; metav1.ObjectMeta_Rest := tt |}.

Definition spec (zones : list Zone) (volumesPerServer : Z) : MinIOInstanceSpec :=
  {| Image := "minio/minio:latest";
     Zones := zones;
     VolumesPerServer := volumesPerServer;
     VolumeClaimTemplate := None;
     Env := [];
     CredsSecret := None;
     Metadata := None;
     Selector := None;
     ExternalCertSecret := None;
     Resources := tt;
     Liveness := None;
     Readiness := None;
     PodManagementPolicy := "Parallel";
     ImagePullSecret := {| corev1.LocalObjectReference_Name := "" |};
     Affinity := None;
     Tolerations := [];
     SecurityContext := None |}.

Definition instance (s : MinIOInstanceSpec) (autoCert kes : bool) : MinIOInstance :=
  {| ObjectMeta := meta "minio";
     Scheduler := {| MinIOInstanceScheduler_Name := "" |};
     Spec := s;
     Rest := (autoCert, kes) |}.

Definition claim (name : string) : corev1.PersistentVolumeClaim :=
  {| corev1.PersistentVolumeClaim_ObjectMeta := meta name;
     corev1.PersistentVolumeClaim_Body := tt |}.

Definition withClaim (s : MinIOInstanceSpec) (c : corev1.PersistentVolumeClaim)
  : MinIOInstanceSpec :=
  {| Image := Image s; Zones := Zones s; VolumesPerServer := VolumesPerServer s;
     VolumeClaimTemplate := Some c;
     Env := Env s; CredsSecret := CredsSecret s; Metadata := Metadata s;
     Selector := Selector s; ExternalCertSecret := ExternalCertSecret s;
     Resources := Resources s; Liveness := Liveness s; Readiness := Readiness s;
     PodManagementPolicy := PodManagementPolicy s;
     ImagePullSecret := ImagePullSecret s; Affinity := Affinity s;
     Tolerations := Tolerations s; SecurityContext := SecurityContext s |}.

Definition withExternalCert (s : MinIOInstanceSpec) (name type : string)
  : MinIOInstanceSpec :=
  {| Image := Image s; Zones := Zones s; VolumesPerServer := VolumesPerServer s;
     VolumeClaimTemplate := VolumeClaimTemplate s;
     Env := Env s; CredsSecret := CredsSecret s; Metadata := Metadata s;
     Selector := Selector s;
     ExternalCertSecret := Some
       {| LocalCertificateReference_Name := name;
          LocalCertificateReference_Type := type |};
     Resources := Resources s; Liveness := Liveness s; Readiness := Readiness s;
     PodManagementPolicy := PodManagementPolicy s;
     ImagePullSecret := ImagePullSecret s; Affinity := Affinity s;
     Tolerations := Tolerations s; SecurityContext := SecurityContext s |}.

Definition withCreds (s : MinIOInstanceSpec) (name : string) : MinIOInstanceSpec :=
  {| Image := Image s; Zones := Zones s; VolumesPerServer := VolumesPerServer s;
     VolumeClaimTemplate := VolumeClaimTemplate s;
     Env := Env s;
     CredsSecret := Some {| corev1.LocalObjectReference_Name := name |};
     Metadata := Metadata s;
     Selector := Selector s; ExternalCertSecret := ExternalCertSecret s;
     Resources := Resources s; Liveness := Liveness s; Readiness := Readiness s;
     PodManagementPolicy := PodManagementPolicy s;
     ImagePullSecret := ImagePullSecret s; Affinity := Affinity s;
     Tolerations := Tolerations s; SecurityContext := SecurityContext s |}.

Definition withLabels (s : MinIOInstanceSpec)
    (metadataLabels selectorLabels : option (gmap string string))
  : MinIOInstanceSpec :=
  {| Image := Image s; Zones := Zones s; VolumesPerServer := VolumesPerServer s;
     VolumeClaimTemplate := VolumeClaimTemplate s;
     Env := Env s; CredsSecret := CredsSecret s;
     Metadata := Some (metav1.ObjectMeta_setLabels (meta "pod") metadataLabels);
     Selector := Some {| metav1.MatchLabels := selectorLabels |};
     ExternalCertSecret := ExternalCertSecret s;
     Resources := Resources s; Liveness := Liveness s; Readiness := Readiness s;
     PodManagementPolicy := PodManagementPolicy s;
     ImagePullSecret := ImagePullSecret s; Affinity := Affinity s;
     Tolerations := Tolerations s; SecurityContext := SecurityContext s |}.

(** One zone of one server, one volume, no certificates. *)
Definition standalone : MinIOInstance :=
  instance (spec [ {| Zone_Name := "zone-0"; Servers := 1 |} ] 1) false false.

(** One zone of four servers, two claimed volumes per server, an external
    certificate secret of the [kubernetes.io/tls] convention. *)
Definition distributed : MinIOInstance :=
  instance
    (withExternalCert
       (withClaim (spec [ {| Zone_Name := "zone-0"; Servers := 4 |} ] 2) (claim "data"))
       "minio-external" "kubernetes.io/tls")
    false false.

(** Four servers, self-signed certificates, the key service enabled, a
    named credential secret. *)
Definition withKeyService : MinIOInstance :=
  instance (withCreds (spec [ {| Zone_Name := "zone-0"; Servers := 4 |} ] 1) "minio-creds")
    true true.

(** An external certificate secret of a type that is neither of the two
    known conventions. *)
Definition unknownExternal : MinIOInstance :=
  instance
    (withExternalCert (spec [ {| Zone_Name := "zone-0"; Servers := 4 |} ] 1)
       "minio-external" "Opaque")
    false false.

(** The key service enabled although no certificates are required. *)
Definition keyServiceWithoutCertificates : MinIOInstance :=
  instance (spec [ {| Zone_Name := "zone-0"; Servers := 4 |} ] 1) false true.

(** A zone that bears the name of the TLS secret. *)
Definition zoneNamedLikeTLS : MinIOInstance :=
  instance (spec [ {| Zone_Name := "minio-tls"; Servers := 4 |} ] 1) false false.

(** One zone and two volumes per server, without a claim template. *)
Definition twoVolumesOneZone : MinIOInstance :=
  instance (spec [ {| Zone_Name := "zone-0"; Servers := 4 |} ] 2) false false.

(** The user metadata and the user selector both set the identity
    label. *)
Definition metadataSetsIdentity : MinIOInstance :=
  instance
    (withLabels (spec [ {| Zone_Name := "zone-0"; Servers := 4 |} ] 1)
       (Some {[ "v1.min.io/instance" := "mine"; "app" := "minio" ]})
       (Some {[ "tier" := "storage" ]}))
    false false.

Definition selectorSetsIdentity : MinIOInstance :=
  instance
    (withLabels (spec [ {| Zone_Name := "zone-0"; Servers := 4 |} ] 1)
       None
       (Some {[ "v1.min.io/instance" := "other" ]}))
    false false.

(** The same package but for the port and the pull policy. *)
Definition otherPackage : Package := package 9443 "IfNotPresent".

(** Self-signed certificates requested and an external secret given. *)
Definition bothCertificates : MinIOInstance :=
  instance
    (withExternalCert (spec [ {| Zone_Name := "zone-0"; Servers := 4 |} ] 1)
       "minio-external" "kubernetes.io/tls")
    true false.

(** An external certificate secret of the cert-manager convention. *)
Definition certManager : MinIOInstance :=
  instance
    (withExternalCert (spec [ {| Zone_Name := "zone-0"; Servers := 4 |} ] 1)
       "minio-external" "cert-manager.io/v1alpha2")
    false false.

(** A claim template but no volume per server; self-signed certificates. *)
Definition noVolumes : MinIOInstance :=
  instance (withClaim (spec [ {| Zone_Name := "zone-0"; Servers := 4 |} ] 0) (claim "data"))
    true false.

(** One server with two volumes. *)
Definition standaloneTwoVolumes : MinIOInstance :=
  instance (spec [ {| Zone_Name := "zone-0"; Servers := 1 |} ] 2) false false.

Definition withEnv (s : MinIOInstanceSpec) (env : list corev1.EnvVar)
  : MinIOInstanceSpec :=
  {| Image := Image s; Zones := Zones s; VolumesPerServer := VolumesPerServer s;
     VolumeClaimTemplate := VolumeClaimTemplate s;
     Env := env; CredsSecret := CredsSecret s; Metadata := Metadata s;
     Selector := Selector s; ExternalCertSecret := ExternalCertSecret s;
     Resources := Resources s; Liveness := Liveness s; Readiness := Readiness s;
     PodManagementPolicy := PodManagementPolicy s;
     ImagePullSecret := ImagePullSecret s; Affinity := Affinity s;
     Tolerations := Tolerations s; SecurityContext := SecurityContext s |}.

(** The user declares the access key and the key-service endpoint as
    literals, and names a credential secret; the key service is on. *)
Definition declaredCredentials : MinIOInstance :=
  instance
    (withCreds
       (withEnv (spec [ {| Zone_Name := "zone-0"; Servers := 4 |} ] 1)
          [ literalEnv "MINIO_ACCESS_KEY" "minio";
            literalEnv "MINIO_KMS_KES_ENDPOINT" "https://elsewhere:7373";
            literalEnv "MINIO_BROWSER" "off" ])
       "minio-creds")
    true true.


(** Self-signed certificates requested and an external secret of an
    unknown type given. *)
Definition bothUnknown : MinIOInstance :=
  instance
    (withExternalCert (spec [ {| Zone_Name := "zone-0"; Servers := 4 |} ] 1)
       "minio-external" "Opaque")
    true false.

End Samples.

(** ** Facts about the loops and library functions *)

Section GoFacts.

Lemma rangeAppend_map {A B} (f : A → B) (xs : list A) (acc : list B) :
  Go.rangeAppend f xs acc = acc ++ map f xs.
Proof.
  unfold Go.rangeAppend. revert acc.
  induction xs as [|x xs IH]; intros acc; simpl.
  - by rewrite app_nil_r.
  - rewrite IH, <- app_assoc. reflexivity.
Qed.

Lemma rangeAppend_id {A} (xs : list A) : Go.rangeAppend id xs [] = xs.
Proof. rewrite rangeAppend_map. simpl. apply map_id. Qed.

Lemma appendLoop_seqZ {A} (f : Z → A) (fuel : nat) (i : Z) (acc : list A) :
  Go.appendLoop f fuel i acc = acc ++ map f (seqZ i (Z.of_nat fuel)).
Proof.
  revert i acc. induction fuel as [|fuel IH]; intros i acc.
  - simpl. by rewrite app_nil_r.
  - cbn [Go.appendLoop]. rewrite IH, <- app_assoc.
    rewrite (seqZ_cons i (Z.of_nat (S fuel))) by lia.
    replace (Z.pred (Z.of_nat (S fuel))) with (Z.of_nat fuel) by lia.
    reflexivity.
Qed.

Lemma forAppend_seqZ {A} (n : Z) (f : Z → A) (acc : list A) :
  Go.forAppend n f acc = acc ++ map f (seqZ 0 n).
Proof.
  unfold Go.forAppend. rewrite appendLoop_seqZ.
  destruct (Z_lt_le_dec n 0) as [Hneg|Hpos].
  - replace (Z.to_nat n) with 0%nat by lia.
    assert (Hnil : seqZ 0 n = []).
    { apply length_zero_iff_nil. rewrite length_seqZ. lia. }
    by rewrite Hnil.
  - by rewrite Z2Nat.id.
Qed.

Lemma length_forAppend {A} (n : Z) (f : Z → A) (acc : list A) :
  length (Go.forAppend n f acc) = (length acc + Z.to_nat n)%nat.
Proof. by rewrite forAppend_seqZ, length_app, length_map, length_seqZ. Qed.

(** Whatever the order of the writes, the loop leaves the source laid
    over the destination. *)
Lemma rangeAssign_union (src dst : gmap string string) :
  Go.rangeAssign src dst = src ∪ dst.
Proof.
  unfold Go.rangeAssign.
  apply (map_fold_weak_ind (λ r m, r = m ∪ dst)).
  - by rewrite (left_id_L ∅ (∪)).
  - intros k v m r _ ->. by rewrite insert_union_l.
Qed.

Lemma rangeAssignTo_Some (src dst : gmap string string) :
  Go.rangeAssignTo src (Some dst) = Some (Some (src ∪ dst)).
Proof. simpl. by rewrite rangeAssign_union. Qed.


Lemma append_empty_r (s : string) : s +:+ "" = s.
Proof.
  induction s as [|c s IH]; [reflexivity|].
  change (String c s +:+ "") with (String c (s +:+ "")). by rewrite IH.
Qed.



End GoFacts.

(** ** What each helper computes *)

Section Helpers.
Import miniov1 statefulsets.
Context `{!K8sPayload} `{!Package} `{!Go.Fmt}.

Lemma HasCredsSecret_eq (mi : MinIOInstance) :
  HasCredsSecret mi = match CredsSecret (Spec mi) with Some _ => true | None => false end.
Proof. unfold HasCredsSecret. by destruct (CredsSecret (Spec mi)). Qed.

Lemma HasMetadata_eq (mi : MinIOInstance) :
  HasMetadata mi = match Metadata (Spec mi) with Some _ => true | None => false end.
Proof. unfold HasMetadata. by destruct (Metadata (Spec mi)). Qed.

Lemma HasSelector_eq (mi : MinIOInstance) :
  HasSelector mi = match Selector (Spec mi) with Some _ => true | None => false end.
Proof. unfold HasSelector. by destruct (Selector (Spec mi)). Qed.

Lemma RequiresExternalCertSetup_eq (mi : MinIOInstance) :
  RequiresExternalCertSetup mi =
  match ExternalCertSecret (Spec mi) with Some _ => true | None => false end.
Proof. unfold RequiresExternalCertSetup. by destruct (ExternalCertSecret (Spec mi)). Qed.

(** The environment: user entries, credential references, key-service
    literals. *)
Lemma minioEnvironmentVars_eq (mi : MinIOInstance) :
  minioEnvironmentVars mi = Some (
    Env (Spec mi)
    ++ match CredsSecret (Spec mi) with
       | Some creds =>
           [ secretReferenceEnv "MINIO_ACCESS_KEY"
               (corev1.LocalObjectReference_Name creds) "accesskey";
             secretReferenceEnv "MINIO_SECRET_KEY"
               (corev1.LocalObjectReference_Name creds) "secretkey" ]
       | None => []
       end
    ++ if HasKESEnabled mi then
         [ literalEnv "MINIO_KMS_KES_ENDPOINT"
             ("https://" +:+ Go.JoinHostPort (KESServiceHost mi) (Go.Itoa KESPort));
           literalEnv "MINIO_KMS_KES_CERT_FILE" "/root/.minio/certs/client.crt";
           literalEnv "MINIO_KMS_KES_KEY_FILE" "/root/.minio/certs/client.key";
           literalEnv "MINIO_KMS_KES_CA_PATH" "/root/.minio/certs/CAs/server.crt";
           literalEnv "MINIO_KMS_KES_KEY_NAME" KESMinIOKey ]
       else []).
Proof.
  unfold minioEnvironmentVars. rewrite rangeAppend_id, HasCredsSecret_eq.
  destruct (CredsSecret (Spec mi)) as [creds|]; cbn;
    destruct (HasKESEnabled mi); cbn;
    rewrite <- ?app_assoc, ?app_nil_r; reflexivity.
Qed.

(** The pod metadata: labels are the user's, overlaid by the identity
    label, overlaid by the user selector's match labels. *)
Lemma minioMetadata_labels (mi : MinIOInstance) :
  ∃ meta, minioMetadata mi = Some meta
    ∧ metav1.Labels meta = Some (userMatchLabels mi ∪ (MinIOPodLabels mi ∪ userLabels mi)).
Proof.
  unfold minioMetadata, userMatchLabels, userLabels.
  rewrite HasMetadata_eq, HasSelector_eq.
  destruct (Metadata (Spec mi)) as [user|].
  - destruct user as [name ns uid labels annotations owners].
    destruct labels as [labels|]; destruct annotations as [annotations|].
    all: cbn -[Go.rangeAssignTo]; rewrite rangeAssignTo_Some; cbn -[Go.rangeAssignTo].
    all: destruct (Selector (Spec mi)) as [selector|]; cbn -[Go.rangeAssignTo].
    all: rewrite ?rangeAssignTo_Some; cbn; eexists; (split; [reflexivity|]); cbn.
    all: by rewrite ?(left_id_L ∅ (∪)).
  - cbn -[Go.rangeAssignTo]; rewrite rangeAssignTo_Some; cbn -[Go.rangeAssignTo].
    destruct (Selector (Spec mi)) as [selector|]; cbn -[Go.rangeAssignTo].
    all: rewrite ?rangeAssignTo_Some; cbn; eexists; (split; [reflexivity|]); cbn.
    all: by rewrite ?(left_id_L ∅ (∪)).
Qed.

Lemma getVolumesForContainer_eq (mi : MinIOInstance) :
  getVolumesForContainer mi =
  match VolumeClaimTemplate (Spec mi) with
  | None => map (λ z, emptyDirVolume (Zone_Name z)) (Zones (Spec mi))
  | Some _ => []
  end.
Proof.
  unfold getVolumesForContainer.
  destruct (VolumeClaimTemplate (Spec mi)); [reflexivity|].
  by rewrite rangeAppend_map.
Qed.

(** The mounts: the storage mounts, named [<base><i>], then the
    certificate mount when certificates are required. *)
Lemma volumeMounts_eq (mi : MinIOInstance) :
  ∃ storage,
    volumeMounts mi =
      storage ++ (if certificatesRequired mi then [certificateMount mi] else [])
    ∧ map corev1.VolumeMount_Name storage =
      map (λ i, storageBaseName mi +:+ Go.Itoa i) (seqZ 0 (VolumesPerServer (Spec mi))).
Proof.
  unfold volumeMounts. fold (storageBaseName mi). fold (certificatesRequired mi).
  destruct (VolumesPerServer (Spec mi) =? 1) eqn:Hone.
  - apply Z.eqb_eq in Hone. rewrite Hone. eexists. split.
    + destruct (certificatesRequired mi); [reflexivity|by rewrite app_nil_r].
    + reflexivity.
  - rewrite forAppend_seqZ. eexists. split.
    + destruct (certificatesRequired mi); [reflexivity|by rewrite app_nil_r].
    + cbn [app]. rewrite map_map. reflexivity.
Qed.

Lemma length_volumeMounts (mi : MinIOInstance) :
  length (volumeMounts mi) =
  (Z.to_nat (VolumesPerServer (Spec mi)) + if certificatesRequired mi then 1 else 0)%nat.
Proof.
  destruct (volumeMounts_eq mi) as (storage & -> & Hnames).
  apply (f_equal length) in Hnames. rewrite !length_map, length_seqZ in Hnames.
  rewrite length_app, Hnames. by destruct (certificatesRequired mi).
Qed.

Lemma setName_setName (pvc : corev1.PersistentVolumeClaim) (a b : string) :
  corev1.PersistentVolumeClaim_setName (corev1.PersistentVolumeClaim_setName pvc a) b
  = corev1.PersistentVolumeClaim_setName pvc b.
Proof. reflexivity. Qed.

(** The claim loop appends, for each index, the template under the
    index-suffixed name. *)
Lemma claimLoop_seqZ (fuel : nat) (i : Z) (name : string)
    (pvClaim : corev1.PersistentVolumeClaim) templates :
  claimLoop fuel i name pvClaim templates =
  templates ++ map (λ j, corev1.PersistentVolumeClaim_setName pvClaim (name +:+ Go.Itoa j))
                   (seqZ i (Z.of_nat fuel)).
Proof.
  revert i pvClaim templates.
  induction fuel as [|fuel IH]; intros i pvClaim templates.
  - simpl. by rewrite app_nil_r.
  - cbn [claimLoop]. rewrite IH, <- app_assoc.
    rewrite (seqZ_cons i (Z.of_nat (S fuel))) by lia.
    replace (Z.pred (Z.of_nat (S fuel))) with (Z.of_nat fuel) by lia.
    reflexivity.
Qed.

(** The container, when there is a first zone. *)
Lemma minioServerContainer_eq (mi : MinIOInstance) (serviceName : string) z zs :
  Zones (Spec mi) = z :: zs →
  ∃ env, minioEnvironmentVars mi = Some env ∧
    minioServerContainer mi serviceName = Some
      {| corev1.Container_Name := MinIOServerName;
         corev1.Container_Image := Image (Spec mi);
         corev1.Container_Ports := [ {| corev1.ContainerPort_ContainerPort := MinIOPort |} ];
         corev1.Container_ImagePullPolicy := DefaultImagePullPolicy;
         corev1.Container_VolumeMounts := volumeMounts mi;
         corev1.Container_Args :=
           if Servers z =? 1 then [ "server"%string; MinIOVolumeMountPath ]
           else "server"%string :: map (peerURL mi) (MinIOHosts mi);
         corev1.Container_Env := env;
         corev1.Container_Resources := Resources (Spec mi);
         corev1.Container_LivenessProbe := Liveness (Spec mi);
         corev1.Container_ReadinessProbe := Readiness (Spec mi) |}.
Proof.
  intros Hzones. eexists. split; [apply minioEnvironmentVars_eq|].
  unfold minioServerContainer. rewrite Hzones, minioEnvironmentVars_eq.
  cbn. rewrite rangeAppend_map. reflexivity.
Qed.

(** Without a first zone the container composer panics. *)
Lemma minioServerContainer_no_zone (mi : MinIOInstance) (serviceName : string) :
  Zones (Spec mi) = [] → minioServerContainer mi serviceName = None.
Proof. intros Hzones. unfold minioServerContainer. by rewrite Hzones. Qed.

(** The descriptor, when there is a first zone. *)
Lemma NewForMinIO_eq (mi : MinIOInstance) (serviceName : string) z zs :
  Zones (Spec mi) = z :: zs →
  ∃ ss c meta,
    NewForMinIO mi serviceName = Some ss
    ∧ minioServerContainer mi serviceName = Some c
    ∧ minioMetadata mi = Some meta
    ∧ corev1.Containers (podSpec ss) = [c]
    ∧ corev1.PodTemplateSpec_ObjectMeta (appsv1.Template (appsv1.StatefulSet_Spec ss)) = meta
    ∧ selectorLabels ss = {[ InstanceLabel := MinIOStatefulSetName mi ]}
    ∧ podVolumes ss =
        getVolumesForContainer mi ++
        (if certificatesRequired mi then
           [ projectedVolume (MinIOTLSSecretName mi)
               (primaryCertificate mi ::
                if HasKESEnabled mi then keyServiceSources mi else []) ]
         else [])
    ∧ claimTemplates ss =
        match VolumeClaimTemplate (Spec mi) with
        | Some template =>
            map (λ i, corev1.PersistentVolumeClaim_setName template
                        (corev1.PersistentVolumeClaim_Name template +:+ Go.Itoa i))
                (seqZ 0 (VolumesPerServer (Spec mi)))
        | None => []
        end.
Proof.
  intros Hzones.
  destruct (minioServerContainer_eq mi serviceName z zs Hzones) as (env & _ & Hc).
  destruct (minioMetadata_labels mi) as (meta & Hmeta & _).
  unfold NewForMinIO. rewrite Hc, Hmeta.
  unfold certificatesRequired, primaryCertificate.
  rewrite RequiresExternalCertSetup_eq.
  assert (Hclaims : ∀ template,
    claimLoop (Z.to_nat (VolumesPerServer (Spec mi))) 0
      (corev1.PersistentVolumeClaim_Name template) template [] =
    map (λ i, corev1.PersistentVolumeClaim_setName template
                (corev1.PersistentVolumeClaim_Name template +:+ Go.Itoa i))
        (seqZ 0 (VolumesPerServer (Spec mi)))).
  { intros template. rewrite claimLoop_seqZ. cbn [app].
    destruct (Z_lt_le_dec (VolumesPerServer (Spec mi)) 0) as [Hneg|Hpos].
    - replace (Z.to_nat (VolumesPerServer (Spec mi))) with 0%nat by lia.
      assert (Hnil : seqZ 0 (VolumesPerServer (Spec mi)) = []).
      { apply length_zero_iff_nil. rewrite length_seqZ. lia. }
      by rewrite Hnil.
    - by rewrite Z2Nat.id. }
  destruct (RequiresAutoCertSetup mi);
    destruct (ExternalCertSecret (Spec mi)) as [external|];
    cbn -[claimLoop];
    (eexists _, _, _; split; [reflexivity|]; repeat split;
     cbn -[claimLoop];
     try (destruct (HasKESEnabled mi); reflexivity);
     try (destruct (VolumeClaimTemplate (Spec mi)); [apply Hclaims|reflexivity])).
  by rewrite app_nil_r.
Qed.

End Helpers.

(** ** The properties of the specification *)

Section Properties.
Import miniov1 statefulsets.
Context `{!K8sPayload} `{!Package} `{!Go.Fmt}.

Lemma nonempty_zones (mi : MinIOInstance) :
  Zones (Spec mi) ≠ [] → ∃ z zs, Zones (Spec mi) = z :: zs.
Proof. destruct (Zones (Spec mi)) as [|z zs]; [done|eauto]. Qed.

(** C9. On a resource with at least one zone [NewForMinIO] returns a
    descriptor; it panics exactly when the zone list is empty, the access
    to the first zone being the one step that can fail. *)
Theorem C9_NewForMinIO_total (mi : MinIOInstance) (serviceName : string) :
  (Zones (Spec mi) ≠ [] → ∃ ss, NewForMinIO mi serviceName = Some ss)
  ∧ (NewForMinIO mi serviceName = None ↔ Zones (Spec mi) = [])
  ∧ (minioServerContainer mi serviceName = None ↔ Zones (Spec mi) = [])
  ∧ is_Some (minioEnvironmentVars mi)
  ∧ is_Some (minioMetadata mi).
Proof.
  assert (Htotal : Zones (Spec mi) ≠ [] → ∃ ss, NewForMinIO mi serviceName = Some ss).
  { intros (z & zs & Hzones)%nonempty_zones.
    destruct (NewForMinIO_eq mi serviceName z zs Hzones) as (ss & _ & _ & Hss & _).
    eauto. }
  assert (Hpanic : Zones (Spec mi) = [] → NewForMinIO mi serviceName = None).
  { intros Hzones. unfold NewForMinIO.
    rewrite (minioServerContainer_no_zone mi serviceName Hzones),
      RequiresExternalCertSetup_eq.
    destruct (RequiresAutoCertSetup mi);
      destruct (ExternalCertSecret (Spec mi)); reflexivity. }
  repeat split.
  - exact Htotal.
  - intros Hnone. destruct (Zones (Spec mi)) as [|z zs] eqn:Hzones; [done|].
    destruct Htotal as [ss Hss]; [done|]. congruence.
  - exact Hpanic.
  - intros Hnone. destruct (Zones (Spec mi)) as [|z zs] eqn:Hzones; [done|].
    destruct (minioServerContainer_eq mi serviceName z zs Hzones) as (env & _ & Hc).
    congruence.
  - apply minioServerContainer_no_zone.
  - rewrite minioEnvironmentVars_eq. eauto.
  - destruct (minioMetadata_labels mi) as (meta & -> & _). eauto.
Qed.

(** C8. The environment of the descriptor's container is: the user's
    entries in their order; then, exactly when a credential secret is
    named, two entries that refer to the keys [accesskey] and [secretkey]
    of that secret and carry no literal value; then, exactly when the key
    service is enabled, the literal endpoint, three certificate paths and
    the key name. *)
Theorem C8_environment_order (mi : MinIOInstance) (serviceName : string) :
  Zones (Spec mi) ≠ [] →
  ∃ ss c credentials keyService,
    NewForMinIO mi serviceName = Some ss
    ∧ corev1.Containers (podSpec ss) = [c]
    ∧ corev1.Container_Env c = Env (Spec mi) ++ credentials ++ keyService
    ∧ minioEnvironmentVars mi = Some (corev1.Container_Env c)
    ∧ match CredsSecret (Spec mi) with
      | Some creds =>
          HasCredsSecret mi = true
          ∧ credentials =
            [ secretReferenceEnv "MINIO_ACCESS_KEY"
                (corev1.LocalObjectReference_Name creds) "accesskey";
              secretReferenceEnv "MINIO_SECRET_KEY"
                (corev1.LocalObjectReference_Name creds) "secretkey" ]
      | None => HasCredsSecret mi = false ∧ credentials = []
      end
    ∧ Forall (λ e, corev1.EnvVar_Value e = EmptyString
                   ∧ is_Some (corev1.EnvVar_ValueFrom e)) credentials
    ∧ keyService =
      if HasKESEnabled mi then
        [ literalEnv "MINIO_KMS_KES_ENDPOINT"
            ("https://" +:+ Go.JoinHostPort (KESServiceHost mi) (Go.Itoa KESPort));
          literalEnv "MINIO_KMS_KES_CERT_FILE" "/root/.minio/certs/client.crt";
          literalEnv "MINIO_KMS_KES_KEY_FILE" "/root/.minio/certs/client.key";
          literalEnv "MINIO_KMS_KES_CA_PATH" "/root/.minio/certs/CAs/server.crt";
          literalEnv "MINIO_KMS_KES_KEY_NAME" KESMinIOKey ]
      else [].
Proof.
  intros (z & zs & Hzones)%nonempty_zones.
  destruct (NewForMinIO_eq mi serviceName z zs Hzones)
    as (ss & c & meta & Hss & Hc & _ & Hcs & _).
  destruct (minioServerContainer_eq mi serviceName z zs Hzones) as (env & Henv & Hc').
  rewrite Hc in Hc'. injection Hc' as ->.
  pose proof Henv as Henv'. rewrite minioEnvironmentVars_eq in Henv'.
  injection Henv' as <-.
  exists ss. eexists _, _, _. split; [exact Hss|]. split; [exact Hcs|].
  split; [reflexivity|]. split; [exact Henv|].
  rewrite HasCredsSecret_eq.
  destruct (CredsSecret (Spec mi)) as [creds|]; repeat split.
  - repeat constructor; cbn; eauto.
  - constructor.
Qed.



(** C5. When certificates are required the pod volumes end with the one
    projected volume, named after the TLS secret; with the key service
    enabled it has exactly three sources, in order the primary
    certificate secret, the client key pair and the key service's CA, and
    with the key service disabled exactly the primary one. *)
Theorem C5_projected_sources (mi : MinIOInstance) (serviceName : string) :
  Zones (Spec mi) ≠ [] →
  certificatesRequired mi = true →
  ∃ ss primaryItems,
    let primary :=
      secretSource
        (if RequiresAutoCertSetup mi then MinIOTLSSecretName mi
         else match ExternalCertSecret (Spec mi) with
              | Some external => LocalCertificateReference_Name external
              | None => EmptyString
              end)
        primaryItems in
    let sources :=
      if HasKESEnabled mi then
        [ primary;
          secretSource (MinIOClientTLSSecretName mi)
            [ keyToPath "public.crt" "client.crt";
              keyToPath "private.key" "client.key" ];
          secretSource (KESTLSSecretName mi)
            [ keyToPath "public.crt" "CAs/server.crt" ] ]
      else [ primary ] in
    NewForMinIO mi serviceName = Some ss
    ∧ podVolumes ss =
        getVolumesForContainer mi ++ [ projectedVolume (MinIOTLSSecretName mi) sources ]
    ∧ length sources = (if HasKESEnabled mi then 3 else 1)%nat
    ∧ Forall (λ v, corev1.Projected (corev1.Volume_VolumeSource v) = None)
             (getVolumesForContainer mi).
Proof.
  intros (z & zs & Hzones)%nonempty_zones Hcerts.
  destruct (NewForMinIO_eq mi serviceName z zs Hzones)
    as (ss & c & meta & Hss & _ & _ & _ & _ & _ & Hvolumes & _).
  rewrite Hcerts in Hvolumes.
  assert (Hephemeral :
    Forall (λ v, corev1.Projected (corev1.Volume_VolumeSource v) = None)
           (getVolumesForContainer mi)).
  { rewrite getVolumesForContainer_eq.
    destruct (VolumeClaimTemplate (Spec mi)); [constructor|].
    apply List.Forall_forall. by intros v (zone & <- & _)%in_map_iff. }
  unfold primaryCertificate in Hvolumes.
  destruct (RequiresAutoCertSetup mi);
    [|destruct (ExternalCertSecret (Spec mi)) as [external|]];
    exists ss; eexists; cbn zeta;
    (split; [exact Hss|]); (split; [|split; [|exact Hephemeral]]);
    try (by destruct (HasKESEnabled mi));
    rewrite Hvolumes; by destruct (HasKESEnabled mi).
Qed.

(** C10, as amended. With an external certificate secret whose type is
    neither [kubernetes.io/tls] nor [cert-manager.io/v1alpha2] the key
    names of the self-signed convention stay in place: the primary source
    projects [public.crt] to [public.crt] and [CAs/public.crt], and
    [private.key] to [private.key].  It names the external secret when
    self-signed certificates are not requested as well, and the
    self-signed TLS secret when they are. *)
Theorem C10_unknown_external_type (mi : MinIOInstance) (serviceName : string) external :
  Zones (Spec mi) ≠ [] →
  ExternalCertSecret (Spec mi) = Some external →
  LocalCertificateReference_Type external ≠ "kubernetes.io/tls"%string →
  LocalCertificateReference_Type external ≠ "cert-manager.io/v1alpha2"%string →
  ∃ ss others,
    NewForMinIO mi serviceName = Some ss
    ∧ RequiresExternalCertSetup mi = true
    ∧ podVolumes ss =
        getVolumesForContainer mi ++
        [ projectedVolume (MinIOTLSSecretName mi)
            (secretSource
               (if RequiresAutoCertSetup mi then MinIOTLSSecretName mi
                else LocalCertificateReference_Name external)
               [ keyToPath "public.crt" "public.crt";
                 keyToPath "private.key" "private.key";
                 keyToPath "public.crt" "CAs/public.crt" ]
             :: others) ].
Proof.
  intros (z & zs & Hzones)%nonempty_zones Hexternal Htls Hcm.
  destruct (NewForMinIO_eq mi serviceName z zs Hzones)
    as (ss & c & meta & Hss & _ & _ & _ & _ & _ & Hvolumes & _).
  unfold certificatesRequired, primaryCertificate in Hvolumes.
  rewrite RequiresExternalCertSetup_eq, Hexternal in Hvolumes.
  apply String.eqb_neq in Htls, Hcm. rewrite Htls, Hcm in Hvolumes.
  exists ss. eexists. split; [exact Hss|]. split.
  - by rewrite RequiresExternalCertSetup_eq, Hexternal.
  - rewrite Hvolumes. by destruct (RequiresAutoCertSetup mi).
Qed.

(** C6. With a claim template and [N] volumes per server there are
    exactly [N] volume claim templates, each the user's template under
    the name [<base><i>] for [i] from [0] to [N-1], and these names are
    the names of the container's [N] storage mounts. *)
Theorem C6_claim_templates (mi : MinIOInstance) (serviceName : string) template N :
  Zones (Spec mi) ≠ [] →
  VolumeClaimTemplate (Spec mi) = Some template →
  VolumesPerServer (Spec mi) = N →
  0 ≤ N →
  ∃ ss c,
    NewForMinIO mi serviceName = Some ss
    ∧ corev1.Containers (podSpec ss) = [c]
    ∧ Z.of_nat (length (claimTemplates ss)) = N
    ∧ claimTemplates ss =
        map (λ i, corev1.PersistentVolumeClaim_setName template
                    (corev1.PersistentVolumeClaim_Name template +:+ Go.Itoa i))
            (seqZ 0 N)
    ∧ Forall (λ claim, corev1.PersistentVolumeClaim_Body claim
                       = corev1.PersistentVolumeClaim_Body template)
             (claimTemplates ss)
    ∧ length (corev1.Container_VolumeMounts c) =
        (Z.to_nat N + if certificatesRequired mi then 1 else 0)%nat
    ∧ map corev1.PersistentVolumeClaim_Name (claimTemplates ss) =
        map corev1.VolumeMount_Name (take (Z.to_nat N) (corev1.Container_VolumeMounts c)).
Proof.
  intros (z & zs & Hzones)%nonempty_zones Htemplate HN Hpos.
  destruct (NewForMinIO_eq mi serviceName z zs Hzones)
    as (ss & c & meta & Hss & Hc & _ & Hcs & _ & _ & _ & Hclaims).
  destruct (minioServerContainer_eq mi serviceName z zs Hzones) as (env & _ & Hc').
  rewrite Hc in Hc'. injection Hc' as ->.
  rewrite Htemplate, HN in Hclaims.
  exists ss. eexists. split; [exact Hss|]. split; [exact Hcs|]. cbn.
  rewrite Hclaims. repeat split.
  - rewrite length_map, length_seqZ. lia.
  - apply List.Forall_forall. by intros claim (i & <- & _)%in_map_iff.
  - by rewrite length_volumeMounts, HN.
  - destruct (volumeMounts_eq mi) as (storage & -> & Hnames).
    rewrite HN in Hnames. unfold storageBaseName in Hnames.
    rewrite Htemplate in Hnames.
    rewrite take_app_length'.
    + rewrite Hnames, map_map. reflexivity.
    + apply (f_equal length) in Hnames.
      by rewrite !length_map, length_seqZ in Hnames.
Qed.

(** The fields the container composer does copy are read off the
    resource in the sense of [readFromSpec]. *)
Lemma copied_fields_readFromSpec :
  readFromSpec corev1.Container_Image
  ∧ readFromSpec corev1.Container_Resources
  ∧ readFromSpec corev1.Container_LivenessProbe
  ∧ readFromSpec corev1.Container_ReadinessProbe.
Proof.
  repeat split;
    [ exists (λ mi, Image (Spec mi)) | exists (λ mi, Resources (Spec mi))
    | exists (λ mi, Liveness (Spec mi)) | exists (λ mi, Readiness (Spec mi)) ];
    intros P mi serviceName c Hc;
    (destruct (Zones (Spec mi)) as [|z zs] eqn:Hzones;
     [by rewrite (@minioServerContainer_no_zone _ P _ mi serviceName Hzones) in Hc|]);
    destruct (@minioServerContainer_eq _ P _ mi serviceName z zs Hzones)
      as (env & _ & Hc');
    rewrite Hc' in Hc; by injection Hc as <-.
Qed.

(** C3, as amended. The container has one storage mount per volume
    per server, whether or not a claim template is configured, plus one
    mount exactly when certificates are required; the pod has one
    ephemeral volume per zone when no claim template is configured and
    none otherwise, plus the projected volume exactly when certificates
    are required. *)
Theorem C3_mount_count (mi : MinIOInstance) (serviceName : string) :
  Zones (Spec mi) ≠ [] →
  ∃ ss c,
    NewForMinIO mi serviceName = Some ss
    ∧ corev1.Containers (podSpec ss) = [c]
    ∧ Z.of_nat (length (corev1.Container_VolumeMounts c)) =
        Z.max 0 (VolumesPerServer (Spec mi))
        + (if certificatesRequired mi then 1 else 0)
    ∧ length (getVolumesForContainer mi) =
        match VolumeClaimTemplate (Spec mi) with
        | None => length (Zones (Spec mi))
        | Some _ => 0%nat
        end
    ∧ length (podVolumes ss) =
        (length (getVolumesForContainer mi)
         + if certificatesRequired mi then 1 else 0)%nat.
Proof.
  intros (z & zs & Hzones)%nonempty_zones.
  destruct (NewForMinIO_eq mi serviceName z zs Hzones)
    as (ss & c & meta & Hss & Hc & _ & Hcs & _ & _ & Hvolumes & _).
  destruct (minioServerContainer_eq mi serviceName z zs Hzones) as (env & _ & Hc').
  rewrite Hc in Hc'. injection Hc' as ->.
  exists ss. eexists. split; [exact Hss|]. split; [exact Hcs|]. cbn.
  repeat split.
  - rewrite length_volumeMounts. destruct (certificatesRequired mi); lia.
  - rewrite getVolumesForContainer_eq.
    destruct (VolumeClaimTemplate (Spec mi)); [reflexivity|apply length_map].
  - rewrite Hvolumes, length_app. by destruct (certificatesRequired mi).
Qed.

(** C4, as amended. Image, resources and both probes of the container
    are those of the resource; the port and the image pull policy are the
    package's [MinIOPort] and [DefaultImagePullPolicy], whatever the
    resource. *)
Theorem C4_container_fields (mi : MinIOInstance) (serviceName : string) :
  Zones (Spec mi) ≠ [] →
  ∃ ss c,
    NewForMinIO mi serviceName = Some ss
    ∧ corev1.Containers (podSpec ss) = [c]
    ∧ corev1.Container_Image c = Image (Spec mi)
    ∧ corev1.Container_Resources c = Resources (Spec mi)
    ∧ corev1.Container_LivenessProbe c = Liveness (Spec mi)
    ∧ corev1.Container_ReadinessProbe c = Readiness (Spec mi)
    ∧ corev1.Container_Ports c = [ {| corev1.ContainerPort_ContainerPort := MinIOPort |} ]
    ∧ corev1.Container_ImagePullPolicy c = DefaultImagePullPolicy.
Proof.
  intros (z & zs & Hzones)%nonempty_zones.
  destruct (NewForMinIO_eq mi serviceName z zs Hzones)
    as (ss & c & meta & Hss & Hc & _ & Hcs & _).
  destruct (minioServerContainer_eq mi serviceName z zs Hzones) as (env & _ & Hc').
  rewrite Hc in Hc'. injection Hc' as ->.
  exists ss. eexists. split; [exact Hss|]. split; [exact Hcs|]. by cbn.
Qed.

(** C1, as amended. In certificate mode none the pod volumes are exactly
    the ephemeral volumes, none of them projected, and the mounts are
    exactly the storage mounts [<base><i>]: a volume or a mount bears the
    TLS secret's name only if a zone or a storage mount is itself so
    named.  The key-service entries follow the key service alone: with
    it disabled an entry of such a name is one the user declared, with it
    enabled all five names are in the environment. *)
Theorem C1_certificate_mode_none (mi : MinIOInstance) (serviceName : string) :
  Zones (Spec mi) ≠ [] →
  certificatesRequired mi = false →
  ∃ ss c,
    NewForMinIO mi serviceName = Some ss
    ∧ corev1.Containers (podSpec ss) = [c]
    ∧ podVolumes ss = getVolumesForContainer mi
    ∧ Forall (λ v, corev1.Projected (corev1.Volume_VolumeSource v) = None)
             (podVolumes ss)
    ∧ ((∀ zone, In zone (Zones (Spec mi)) → Zone_Name zone ≠ MinIOTLSSecretName mi) →
       ∀ v, In v (podVolumes ss) → corev1.Volume_Name v ≠ MinIOTLSSecretName mi)
    ∧ map corev1.VolumeMount_Name (corev1.Container_VolumeMounts c) =
        map (λ i, storageBaseName mi +:+ Go.Itoa i)
            (seqZ 0 (VolumesPerServer (Spec mi)))
    ∧ ((∀ i, 0 ≤ i < VolumesPerServer (Spec mi) →
             storageBaseName mi +:+ Go.Itoa i ≠ MinIOTLSSecretName mi) →
       ∀ m, In m (corev1.Container_VolumeMounts c) →
            corev1.VolumeMount_Name m ≠ MinIOTLSSecretName mi)
    ∧ (HasKESEnabled mi = false →
       ∀ e, In e (corev1.Container_Env c) → In (corev1.EnvVar_Name e) kmsNames →
            In e (Env (Spec mi)))
    ∧ (HasKESEnabled mi = true →
       ∀ name, In name kmsNames →
               ∃ e, In e (corev1.Container_Env c) ∧ corev1.EnvVar_Name e = name).
Proof.
  intros (z & zs & Hzones)%nonempty_zones Hnone.
  destruct (NewForMinIO_eq mi serviceName z zs Hzones)
    as (ss & c & meta & Hss & Hc & _ & Hcs & _ & _ & Hvolumes & _).
  destruct (minioServerContainer_eq mi serviceName z zs Hzones) as (env & Henv & Hc').
  rewrite Hc in Hc'. injection Hc' as ->.
  rewrite minioEnvironmentVars_eq in Henv. injection Henv as <-.
  rewrite Hnone, app_nil_r in Hvolumes.
  destruct (volumeMounts_eq mi) as (storage & Hmounts & Hnames).
  rewrite Hnone, app_nil_r in Hmounts.
  exists ss. eexists. split; [exact Hss|]. split; [exact Hcs|]. cbn.
  rewrite Hvolumes, Hmounts, Hnames, getVolumesForContainer_eq.
  repeat split.
  - destruct (VolumeClaimTemplate (Spec mi)); [constructor|].
    apply List.Forall_forall. by intros v (zone & <- & _)%in_map_iff.
  - intros Hfresh v Hv. destruct (VolumeClaimTemplate (Spec mi)); [done|].
    apply in_map_iff in Hv as (zone & <- & Hzone). by apply Hfresh.
  - intros Hfresh m Hm. apply (in_map corev1.VolumeMount_Name) in Hm.
    rewrite Hnames in Hm. apply in_map_iff in Hm as (i & <- & Hi).
    apply Hfresh. apply list_elem_of_In, elem_of_seqZ in Hi. lia.
  - intros Hkes e He Hname. rewrite Hkes, app_nil_r in He.
    apply in_app_or in He as [He|He]; [exact He|].
    destruct (CredsSecret (Spec mi)) as [creds|]; [|done].
    unfold kmsNames in Hname.
    destruct He as [<-|[<-|[]]]; cbn in Hname; intuition discriminate.
  - intros Hkes name Hname. rewrite Hkes.
    unfold kmsNames in Hname. cbn [In] in Hname.
    destruct Hname as [<-|[<-|[<-|[<-|[<-|[]]]]]];
      (eexists (literalEnv _ _); split; revgoals; [reflexivity|];
       apply in_or_app; right; apply in_or_app; right; cbn; eauto 10).
Qed.

(** C2, as amended. For every resource the pod template's labels are
    the user metadata's labels, overlaid by the identity label, overlaid
    by the user selector's match labels: on the identity key the user
    metadata loses to the composer and the composer loses to the user
    selector.  The descriptor's selector is included in the template's
    labels, and the identity label carries the composer's value, exactly
    when the user selector does not set the identity key or sets it to
    the composer's value. *)
Theorem C2_selector_in_template_labels (mi : MinIOInstance) (serviceName : string) :
  Zones (Spec mi) ≠ [] →
  ∃ ss,
    NewForMinIO mi serviceName = Some ss
    ∧ selectorLabels ss = {[ InstanceLabel := MinIOStatefulSetName mi ]}
    ∧ templateLabels ss =
        userMatchLabels mi ∪ ({[ InstanceLabel := MinIOStatefulSetName mi ]} ∪ userLabels mi)
    ∧ templateLabels ss !! InstanceLabel =
        Some (default (MinIOStatefulSetName mi) (userMatchLabels mi !! InstanceLabel))
    ∧ (selectorLabels ss ⊆ templateLabels ss
       ↔ userMatchLabels mi !! InstanceLabel = None
         ∨ userMatchLabels mi !! InstanceLabel = Some (MinIOStatefulSetName mi))
    ∧ (templateLabels ss !! InstanceLabel = Some (MinIOStatefulSetName mi)
       ↔ userMatchLabels mi !! InstanceLabel = None
         ∨ userMatchLabels mi !! InstanceLabel = Some (MinIOStatefulSetName mi)).
Proof.
  intros (z & zs & Hzones)%nonempty_zones.
  destruct (NewForMinIO_eq mi serviceName z zs Hzones)
    as (ss & c & meta & Hss & _ & Hmeta & _ & Htemplate & Hsel & _).
  destruct (minioMetadata_labels mi) as (meta' & Hmeta' & Hlabels).
  rewrite Hmeta in Hmeta'. injection Hmeta' as <-.
  assert (Hall : templateLabels ss =
    userMatchLabels mi ∪ ({[ InstanceLabel := MinIOStatefulSetName mi ]} ∪ userLabels mi)).
  { unfold templateLabels. by rewrite Htemplate, Hlabels. }
  assert (Hidentity : templateLabels ss !! InstanceLabel =
    Some (default (MinIOStatefulSetName mi) (userMatchLabels mi !! InstanceLabel))).
  { rewrite Hall. destruct (userMatchLabels mi !! InstanceLabel) as [value|] eqn:Hvalue.
    - by apply lookup_union_Some_l.
    - rewrite lookup_union_r by done.
      apply lookup_union_Some_l, lookup_singleton_eq. }
  assert (Hiff : templateLabels ss !! InstanceLabel = Some (MinIOStatefulSetName mi)
       ↔ userMatchLabels mi !! InstanceLabel = None
         ∨ userMatchLabels mi !! InstanceLabel = Some (MinIOStatefulSetName mi)).
  { rewrite Hidentity.
    destruct (userMatchLabels mi !! InstanceLabel) as [value|]; cbn.
    - split; [intros [= ->]; by right|intros [|[= ->]]; done].
    - split; [by left|done]. }
  exists ss. split; [exact Hss|]. split; [exact Hsel|]. split; [exact Hall|].
  split; [exact Hidentity|]. split; [|exact Hiff].
  rewrite Hsel, map_singleton_subseteq_l. exact Hiff.
Qed.

End Properties.

(** ** The compiler on the sample resources *)

Section Runs.
Import miniov1 statefulsets Samples.

Example Itoa_samples :
  (Go.Itoa 0, Go.Itoa 12, Go.Itoa (-3)) = ("0", "12", "-3")%string.
Proof. reflexivity. Qed.

Example JoinHostPort_samples :
  (Go.JoinHostPort "minio-kes-hl-svc" "7373", Go.JoinHostPort "::1" "7373")
  = ("minio-kes-hl-svc:7373", "[::1]:7373")%string.
Proof. reflexivity. Qed.

Example Sprintf_samples :
  (Go.Sprintf "%s://minio-0.zone-0%s" ["http"; "/export"]%string,
   Go.Sprintf "%s://a%sb%s" ["http"; "/export"]%string)
  = ("http://minio-0.zone-0/export", "http://a/exportb%!s(MISSING)")%string.
Proof. reflexivity. Qed.

Example standalone_args :
  (c ← minioServerContainer standalone "svc"; Some (corev1.Container_Args c))
  = Some ["server"; "/export"]%string.
Proof. reflexivity. Qed.

Example distributed_claims :
  (ss ← NewForMinIO distributed "svc";
   Some (map corev1.PersistentVolumeClaim_Name (claimTemplates ss)))
  = Some ["data0"; "data1"]%string.
Proof. reflexivity. Qed.

Example withKeyService_env_names :
  (env ← minioEnvironmentVars withKeyService; Some (map corev1.EnvVar_Name env))
  = Some [ "MINIO_ACCESS_KEY"; "MINIO_SECRET_KEY"; "MINIO_KMS_KES_ENDPOINT";
           "MINIO_KMS_KES_CERT_FILE"; "MINIO_KMS_KES_KEY_FILE";
           "MINIO_KMS_KES_CA_PATH"; "MINIO_KMS_KES_KEY_NAME" ]%string.
Proof. reflexivity. Qed.

End Runs.

(** ** The properties on the sample resources *)

Section Instances.
Import miniov1 statefulsets Samples.

Lemma C9_witness :
  Zones (Spec standalone) ≠ [] ∧ ∃ ss, NewForMinIO standalone "svc" = Some ss.
Proof.
  assert (Hzones : Zones (Spec standalone) ≠ []) by discriminate.
  split; [exact Hzones|].
  exact (proj1 (C9_NewForMinIO_total standalone "svc") Hzones).
Defined.

Lemma C8_witness :
  Zones (Spec withKeyService) ≠ []
  ∧ ∃ ss c,
      NewForMinIO withKeyService "svc" = Some ss
      ∧ corev1.Containers (podSpec ss) = [c]
      ∧ corev1.Container_Env c =
          [ secretReferenceEnv "MINIO_ACCESS_KEY" "minio-creds" "accesskey";
            secretReferenceEnv "MINIO_SECRET_KEY" "minio-creds" "secretkey";
            literalEnv "MINIO_KMS_KES_ENDPOINT" "https://minio-kes-hl-svc:7373";
            literalEnv "MINIO_KMS_KES_CERT_FILE" "/root/.minio/certs/client.crt";
            literalEnv "MINIO_KMS_KES_KEY_FILE" "/root/.minio/certs/client.key";
            literalEnv "MINIO_KMS_KES_CA_PATH" "/root/.minio/certs/CAs/server.crt";
            literalEnv "MINIO_KMS_KES_KEY_NAME" "my-minio-key" ].
Proof.
  assert (Hzones : Zones (Spec withKeyService) ≠ []) by discriminate.
  split; [exact Hzones|].
  destruct (C8_environment_order withKeyService "svc" Hzones)
    as (ss & c & credentials & keyService & Hss & Hcs & Henv & _ & Hcreds & _ & Hkes).
  exists ss, c. split; [exact Hss|]. split; [exact Hcs|].
  destruct Hcreds as [_ Hcreds]. rewrite Henv, Hcreds, Hkes. reflexivity.
Defined.



Lemma C5_witness :
  Zones (Spec withKeyService) ≠ []
  ∧ certificatesRequired withKeyService = true
  ∧ ∃ ss items,
      NewForMinIO withKeyService "svc" = Some ss
      ∧ podVolumes ss =
          [ emptyDirVolume "zone-0";
            projectedVolume "minio-tls"
              [ secretSource "minio-tls" items;
                secretSource "minio-client-tls"
                  [ keyToPath "public.crt" "client.crt";
                    keyToPath "private.key" "client.key" ];
                secretSource "minio-kes-tls" [ keyToPath "public.crt" "CAs/server.crt" ] ] ].
Proof.
  assert (Hzones : Zones (Spec withKeyService) ≠ []) by discriminate.
  assert (Hcerts : certificatesRequired withKeyService = true) by reflexivity.
  split; [exact Hzones|]. split; [exact Hcerts|].
  destruct (C5_projected_sources withKeyService "svc" Hzones Hcerts)
    as (ss & items & Hss & Hvolumes & _).
  exists ss, items. split; [exact Hss|exact Hvolumes].
Defined.

Lemma C10_witness :
  Zones (Spec unknownExternal) ≠ []
  ∧ RequiresAutoCertSetup unknownExternal = false
  ∧ ExternalCertSecret (Spec unknownExternal) = Some
      {| LocalCertificateReference_Name := "minio-external";
         LocalCertificateReference_Type := "Opaque" |}
  ∧ "Opaque"%string ≠ "kubernetes.io/tls"%string
  ∧ "Opaque"%string ≠ "cert-manager.io/v1alpha2"%string
  ∧ ∃ ss others,
      NewForMinIO unknownExternal "svc" = Some ss
      ∧ podVolumes ss =
          [ emptyDirVolume "zone-0";
            projectedVolume "minio-tls"
              (secretSource "minio-external"
                 [ keyToPath "public.crt" "public.crt";
                   keyToPath "private.key" "private.key";
                   keyToPath "public.crt" "CAs/public.crt" ]
               :: others) ].
Proof.
  assert (Hzones : Zones (Spec unknownExternal) ≠ []) by discriminate.
  assert (Hauto : RequiresAutoCertSetup unknownExternal = false) by reflexivity.
  assert (Hexternal : ExternalCertSecret (Spec unknownExternal) = Some
      {| LocalCertificateReference_Name := "minio-external";
         LocalCertificateReference_Type := "Opaque" |}) by reflexivity.
  assert (Htls : "Opaque"%string ≠ "kubernetes.io/tls"%string) by discriminate.
  assert (Hcm : "Opaque"%string ≠ "cert-manager.io/v1alpha2"%string) by discriminate.
  repeat (split; [assumption|]).
  destruct (C10_unknown_external_type unknownExternal "svc" _
              Hzones Hexternal Htls Hcm)
    as (ss & others & Hss & _ & Hvolumes).
  exists ss, others. split; [exact Hss|exact Hvolumes].
Defined.

(** C10 as stated fails when self-signed certificates are requested as
    well: the first branch is taken, and the primary source names the
    self-signed TLS secret, not the external secret of the unknown
    type. *)
Lemma C10_counterexample :
  RequiresExternalCertSetup bothUnknown = true
  ∧ ExternalCertSecret (Spec bothUnknown) = Some
      {| LocalCertificateReference_Name := "minio-external";
         LocalCertificateReference_Type := "Opaque" |}
  ∧ ∃ ss,
      NewForMinIO bothUnknown "svc" = Some ss
      ∧ podVolumes ss =
          [ emptyDirVolume "zone-0";
            projectedVolume "minio-tls"
              [ secretSource "minio-tls"
                  [ keyToPath "public.crt" "public.crt";
                    keyToPath "private.key" "private.key";
                    keyToPath "public.crt" "CAs/public.crt" ] ] ]
      ∧ ¬ ∃ items others,
            podVolumes ss =
              [ emptyDirVolume "zone-0";
                projectedVolume "minio-tls"
                  (secretSource "minio-external" items :: others) ].
Proof.
  split; [reflexivity|]. split; [reflexivity|].
  eexists. split; [reflexivity|]. split; [reflexivity|].
  intros (items & others & Hvolumes). discriminate Hvolumes.
Qed.

Lemma C6_witness :
  Zones (Spec distributed) ≠ []
  ∧ VolumeClaimTemplate (Spec distributed) = Some (claim "data")
  ∧ VolumesPerServer (Spec distributed) = 2
  ∧ 0 ≤ 2
  ∧ ∃ ss c,
      NewForMinIO distributed "svc" = Some ss
      ∧ corev1.Containers (podSpec ss) = [c]
      ∧ claimTemplates ss = [ claim "data0"; claim "data1" ]
      ∧ map corev1.VolumeMount_Name (take 2 (corev1.Container_VolumeMounts c))
        = [ "data0"; "data1" ]%string
      ∧ length (corev1.Container_VolumeMounts c) = 3%nat.
Proof.
  assert (Hzones : Zones (Spec distributed) ≠ []) by discriminate.
  assert (Htemplate : VolumeClaimTemplate (Spec distributed) = Some (claim "data"))
    by reflexivity.
  assert (HN : VolumesPerServer (Spec distributed) = 2) by reflexivity.
  assert (Hpos : 0 ≤ 2) by lia.
  repeat (split; [assumption|]).
  destruct (C6_claim_templates distributed "svc" _ _ Hzones Htemplate HN Hpos)
    as (ss & c & Hss & Hc & _ & Hclaims & _ & Hlength & Hnames).
  exists ss, c. split; [exact Hss|]. split; [exact Hc|].
  split; [exact Hclaims|]. split; [|exact Hlength].
  transitivity (map corev1.PersistentVolumeClaim_Name (claimTemplates ss));
    [symmetry; exact Hnames|].
  rewrite Hclaims. reflexivity.
Defined.

Lemma C3_witness :
  Zones (Spec distributed) ≠ []
  ∧ ∃ ss c,
      NewForMinIO distributed "svc" = Some ss
      ∧ corev1.Containers (podSpec ss) = [c]
      ∧ Z.of_nat (length (corev1.Container_VolumeMounts c)) = 2 + 1
      ∧ length (podVolumes ss) = (0 + 1)%nat.
Proof.
  assert (Hzones : Zones (Spec distributed) ≠ []) by discriminate.
  split; [exact Hzones|].
  destruct (C3_mount_count distributed "svc" Hzones)
    as (ss & c & Hss & Hc & Hmounts & _ & Hvolumes).
  exists ss, c. split; [exact Hss|]. split; [exact Hc|].
  split; [exact Hmounts|exact Hvolumes].
Defined.

(** C3 as stated fails: one zone and two volumes per server, no claim
    template, no certificates: two mounts for one ephemeral volume. *)
Lemma C3_counterexample :
  VolumeClaimTemplate (Spec twoVolumesOneZone) = None
  ∧ certificatesRequired twoVolumesOneZone = false
  ∧ ∃ ss c,
      NewForMinIO twoVolumesOneZone "svc" = Some ss
      ∧ corev1.Containers (podSpec ss) = [c]
      ∧ podVolumes ss = [ emptyDirVolume "zone-0" ]
      ∧ map corev1.VolumeMount_Name (corev1.Container_VolumeMounts c)
        = [ "export0"; "export1" ]%string
      ∧ length (corev1.Container_VolumeMounts c) ≠ (length (podVolumes ss) + 0)%nat.
Proof.
  split; [reflexivity|]. split; [reflexivity|].
  eexists _, _. split; [reflexivity|]. split; [reflexivity|].
  split; [reflexivity|]. split; [reflexivity|]. discriminate.
Qed.

Lemma C4_witness :
  Zones (Spec standalone) ≠ []
  ∧ ∃ ss c,
      NewForMinIO standalone "svc" = Some ss
      ∧ corev1.Containers (podSpec ss) = [c]
      ∧ corev1.Container_Image c = "minio/minio:latest"%string
      ∧ corev1.Container_Ports c = [ {| corev1.ContainerPort_ContainerPort := 9000 |} ]
      ∧ corev1.Container_ImagePullPolicy c = "Always"%string.
Proof.
  assert (Hzones : Zones (Spec standalone) ≠ []) by discriminate.
  split; [exact Hzones|].
  destruct (C4_container_fields standalone "svc" Hzones)
    as (ss & c & Hss & Hc & Himage & _ & _ & _ & Hport & Hpolicy).
  exists ss, c. split; [exact Hss|]. split; [exact Hc|].
  split; [exact Himage|]. split; [exact Hport|exact Hpolicy].
Defined.

(** C4 as stated fails for the port and the pull policy: the same
    resource under two packages that differ in [MinIOPort] and
    [DefaultImagePullPolicy] gets two ports and two policies, so neither
    is read off the resource. *)
Lemma C4_counterexample :
  ¬ readFromSpec corev1.Container_Ports
  ∧ ¬ readFromSpec corev1.Container_ImagePullPolicy.
Proof.
  split; intros [read Hread].
  - pose proof (Hread defaultPackage standalone "svc" _ eq_refl) as H1.
    pose proof (Hread otherPackage standalone "svc" _ eq_refl) as H2.
    cbn in H1, H2. rewrite <- H1 in H2. discriminate.
  - pose proof (Hread defaultPackage standalone "svc" _ eq_refl) as H1.
    pose proof (Hread otherPackage standalone "svc" _ eq_refl) as H2.
    cbn in H1, H2. rewrite <- H1 in H2. discriminate.
Qed.

Lemma C1_witness :
  Zones (Spec standalone) ≠ []
  ∧ certificatesRequired standalone = false
  ∧ ∃ ss c,
      NewForMinIO standalone "svc" = Some ss
      ∧ corev1.Containers (podSpec ss) = [c]
      ∧ podVolumes ss = [ emptyDirVolume "zone-0" ]
      ∧ map corev1.VolumeMount_Name (corev1.Container_VolumeMounts c)
        = [ "export0" ]%string
      ∧ ∀ e, In e (corev1.Container_Env c) → ¬ In (corev1.EnvVar_Name e) kmsNames.
Proof.
  assert (Hzones : Zones (Spec standalone) ≠ []) by discriminate.
  assert (Hnone : certificatesRequired standalone = false) by reflexivity.
  split; [exact Hzones|]. split; [exact Hnone|].
  destruct (C1_certificate_mode_none standalone "svc" Hzones Hnone)
    as (ss & c & Hss & Hc & Hvolumes & _ & _ & Hmounts & _ & Henv & _).
  exists ss, c. split; [exact Hss|]. split; [exact Hc|].
  split; [exact Hvolumes|]. split; [exact Hmounts|].
  intros e He Hname. exact (Henv eq_refl e He Hname).
Defined.

(** C1 as stated fails.  With the key service enabled and no
    certificates required the environment still has the key-service
    entries; and a zone named as the TLS secret gives a pod volume of
    that name. *)
Lemma C1_counterexample :
  (certificatesRequired keyServiceWithoutCertificates = false
   ∧ HasKESEnabled keyServiceWithoutCertificates = true
   ∧ ∃ ss c,
       NewForMinIO keyServiceWithoutCertificates "svc" = Some ss
       ∧ corev1.Containers (podSpec ss) = [c]
       ∧ map corev1.EnvVar_Name (corev1.Container_Env c) = kmsNames)
  ∧ (certificatesRequired zoneNamedLikeTLS = false
     ∧ ∃ ss,
         NewForMinIO zoneNamedLikeTLS "svc" = Some ss
         ∧ map corev1.Volume_Name (podVolumes ss) = [ MinIOTLSSecretName zoneNamedLikeTLS ]).
Proof.
  split.
  - split; [reflexivity|]. split; [reflexivity|].
    eexists _, _. split; [reflexivity|]. split; reflexivity.
  - split; [reflexivity|]. eexists. split; reflexivity.
Qed.

Lemma C2_witness :
  Zones (Spec metadataSetsIdentity) ≠ []
  ∧ userLabels metadataSetsIdentity !! "v1.min.io/instance" = Some "mine"%string
  ∧ userMatchLabels metadataSetsIdentity !! InstanceLabel = None
  ∧ ∃ ss,
      NewForMinIO metadataSetsIdentity "svc" = Some ss
      ∧ selectorLabels ss ⊆ templateLabels ss
      ∧ templateLabels ss !! "v1.min.io/instance" = Some "minio"%string.
Proof.
  assert (Hzones : Zones (Spec metadataSetsIdentity) ≠ []) by discriminate.
  assert (Hselector : userMatchLabels metadataSetsIdentity !! InstanceLabel = None)
    by reflexivity.
  split; [exact Hzones|]. split; [reflexivity|]. split; [exact Hselector|].
  destruct (C2_selector_in_template_labels metadataSetsIdentity "svc" Hzones)
    as (ss & Hss & _ & _ & _ & Hsubset & Hidentity).
  exists ss. split; [exact Hss|].
  split; [exact (proj2 Hsubset (or_introl Hselector))|].
  exact (proj2 Hidentity (or_introl Hselector)).
Defined.

(** C2 as stated fails: match labels of the user selector that set the
    identity key are written last and replace the composer's value, and
    the descriptor's selector no longer matches the template. *)
Lemma C2_counterexample :
  ∃ ss,
    NewForMinIO selectorSetsIdentity "svc" = Some ss
    ∧ selectorLabels ss !! "v1.min.io/instance" = Some "minio"%string
    ∧ templateLabels ss !! "v1.min.io/instance" = Some "other"%string
    ∧ ¬ selectorLabels ss ⊆ templateLabels ss.
Proof.
  eexists. split; [reflexivity|]. split; [reflexivity|]. split; [reflexivity|].
  intros Hsubset.
  pose proof (proj1 (map_subseteq_spec _ _) Hsubset
                "v1.min.io/instance"%string "minio"%string eq_refl) as Hlookup.
  vm_compute in Hlookup. discriminate.
Qed.

End Instances.

(** ** Further facts about the library functions *)

Section NameFacts.

Lemma to_int_not_nil (i : Z) :
  Z.to_int i ≠ Decimal.Pos Decimal.Nil ∧ Z.to_int i ≠ Decimal.Neg Decimal.Nil.
Proof.
  destruct i as [|p|p]; cbn; split; try discriminate;
    intros [=Hnil]; by apply (Unsigned.to_uint_nonnil p).
Qed.

(** Two integers with the same decimal text are equal. *)
Lemma Itoa_inj (i j : Z) : Go.Itoa i = Go.Itoa j → i = j.
Proof.
  unfold Go.Itoa. intros Htext.
  destruct (to_int_not_nil i) as [Hi1 Hi2], (to_int_not_nil j) as [Hj1 Hj2].
  pose proof (NilZero.isi (Z.to_int i) Hi1 Hi2) as Hi.
  pose proof (NilZero.isi (Z.to_int j) Hj1 Hj2) as Hj.
  rewrite Htext, Hj in Hi. injection Hi as Hints.
  by rewrite <- (DecimalZ.of_to i), <- (DecimalZ.of_to j), Hints.
Qed.

(** The decimal text of an integer has at least one character. *)
Lemma Itoa_nonempty (i : Z) : Go.Itoa i ≠ EmptyString.
Proof.
  unfold Go.Itoa.
  destruct i as [|p|p]; cbn; [discriminate| |discriminate].
  pose proof (Unsigned.to_uint_nonnil p) as Hnil.
  by destruct (Pos.to_uint p).
Qed.

Lemma append_nonempty_ne (s t : string) : t ≠ EmptyString → s +:+ t ≠ s.
Proof.
  intros Ht Heq. apply Ht.
  apply (String.app_inj s). by rewrite Heq, append_empty_r.
Qed.

(** Index-suffixed names are pairwise distinct. *)
Lemma NoDup_suffixed (base : string) (n : Z) :
  NoDup (map (λ i, base +:+ Go.Itoa i) (seqZ 0 n)).
Proof.
  assert (Hinj : Inj eq eq (λ i, base +:+ Go.Itoa i)).
  { intros i j Heq. by apply Itoa_inj, (String.app_inj base). }
  apply (NoDup_fmap_2 (λ i, base +:+ Go.Itoa i)), NoDup_seqZ.
Qed.

End NameFacts.

(** ** More of what the compiler computes *)

Section MoreHelpers.
Import miniov1 statefulsets.
Context `{!K8sPayload} `{!Package} `{!Go.Fmt}.

(** The storage mounts in full. *)
Lemma volumeMounts_storage (mi : MinIOInstance) :
  volumeMounts mi =
  (if VolumesPerServer (Spec mi) =? 1 then
     [ {| corev1.VolumeMount_Name := storageBaseName mi +:+ Go.Itoa 0;
          corev1.VolumeMount_MountPath := MinIOVolumeMountPath |} ]
   else
     map (λ i, {| corev1.VolumeMount_Name := storageBaseName mi +:+ Go.Itoa i;
                  corev1.VolumeMount_MountPath := MinIOVolumeMountPath +:+ Go.Itoa i |})
         (seqZ 0 (VolumesPerServer (Spec mi))))
  ++ (if certificatesRequired mi then [certificateMount mi] else []).
Proof.
  unfold volumeMounts. fold (storageBaseName mi). fold (certificatesRequired mi).
  destruct (VolumesPerServer (Spec mi) =? 1).
  - destruct (certificatesRequired mi); [reflexivity|by rewrite app_nil_r].
  - rewrite forAppend_seqZ. cbn [app].
    destruct (certificatesRequired mi); [reflexivity|by rewrite app_nil_r].
Qed.

Lemma take_storage (mi : MinIOInstance) :
  take (Z.to_nat (VolumesPerServer (Spec mi))) (volumeMounts mi) =
  if VolumesPerServer (Spec mi) =? 1 then
    [ {| corev1.VolumeMount_Name := storageBaseName mi +:+ Go.Itoa 0;
         corev1.VolumeMount_MountPath := MinIOVolumeMountPath |} ]
  else
    map (λ i, {| corev1.VolumeMount_Name := storageBaseName mi +:+ Go.Itoa i;
                 corev1.VolumeMount_MountPath := MinIOVolumeMountPath +:+ Go.Itoa i |})
        (seqZ 0 (VolumesPerServer (Spec mi))).
Proof.
  rewrite volumeMounts_storage. apply take_app_length'.
  destruct (VolumesPerServer (Spec mi) =? 1) eqn:Hone.
  - apply Z.eqb_eq in Hone. by rewrite Hone.
  - by rewrite length_map, length_seqZ.
Qed.

(** The fields of the descriptor around the pod template. *)
Lemma NewForMinIO_header (mi : MinIOInstance) (serviceName : string) z zs :
  Zones (Spec mi) = z :: zs →
  ∃ ss,
    NewForMinIO mi serviceName = Some ss
    ∧ appsv1.StatefulSet_ObjectMeta ss =
        {| metav1.Name := Name mi;
           metav1.Namespace := Namespace mi;
           metav1.UID := "";
           metav1.Labels := None;
           metav1.Annotations := None;
           metav1.OwnerReferences := [
             metav1.NewControllerRef (ObjectMeta mi)
               {| metav1.GVK_Group := metav1.Group SchemeGroupVersion;
                  metav1.GVK_Version := metav1.Version SchemeGroupVersion;
                  metav1.GVK_Kind := MinIOCRDResourceKind |} ];
           metav1.ObjectMeta_Rest := ObjectMetaRest_zero |}
    ∧ appsv1.UpdateStrategy (appsv1.StatefulSet_Spec ss) =
        {| appsv1.StatefulSetUpdateStrategy_Type := DefaultUpdateStrategy |}
    ∧ appsv1.PodManagementPolicy (appsv1.StatefulSet_Spec ss) =
        PodManagementPolicy (Spec mi)
    ∧ appsv1.ServiceName (appsv1.StatefulSet_Spec ss) = serviceName
    ∧ appsv1.Replicas (appsv1.StatefulSet_Spec ss) = Some (MinIOReplicas mi)
    ∧ corev1.ImagePullSecrets (podSpec ss) = [ImagePullSecret (Spec mi)]
    ∧ corev1.RestartPolicy (podSpec ss) = corev1.RestartPolicyAlways
    ∧ corev1.PodSpec_Affinity (podSpec ss) = Affinity (Spec mi)
    ∧ corev1.SchedulerName (podSpec ss) = MinIOInstanceScheduler_Name (Scheduler mi)
    ∧ corev1.PodSpec_Tolerations (podSpec ss) = minioTolerations mi
    ∧ corev1.PodSpec_SecurityContext (podSpec ss) = minioSecurityContext mi.
Proof.
  intros Hzones.
  destruct (minioServerContainer_eq mi serviceName z zs Hzones) as (env & _ & Hc).
  destruct (minioMetadata_labels mi) as (meta & Hmeta & _).
  unfold NewForMinIO. rewrite Hc, Hmeta, RequiresExternalCertSetup_eq.
  destruct (RequiresAutoCertSetup mi);
    destruct (ExternalCertSecret (Spec mi)) as [external|];
    cbn -[claimLoop]; (eexists; split; [reflexivity|]); by repeat split.
Qed.

(** The pod metadata in full: the user's metadata with both maps made
    non-nil and the labels overlaid. *)
Lemma minioMetadata_eq (mi : MinIOInstance) :
  ∃ meta,
    minioMetadata mi = Some meta
    ∧ metav1.Labels meta = Some (userMatchLabels mi ∪ (MinIOPodLabels mi ∪ userLabels mi))
    ∧ metav1.Annotations meta =
        Some (Go.entries (metav1.Annotations (userMetadata mi)))
    ∧ metav1.Name meta = metav1.Name (userMetadata mi)
    ∧ metav1.Namespace meta = metav1.Namespace (userMetadata mi)
    ∧ metav1.UID meta = metav1.UID (userMetadata mi)
    ∧ metav1.OwnerReferences meta = metav1.OwnerReferences (userMetadata mi)
    ∧ metav1.ObjectMeta_Rest meta = metav1.ObjectMeta_Rest (userMetadata mi).
Proof.
  unfold minioMetadata, userMatchLabels, userLabels, userMetadata.
  rewrite HasMetadata_eq, HasSelector_eq.
  destruct (Metadata (Spec mi)) as [user|].
  - destruct user as [name ns uid labels annotations owners rest].
    destruct labels as [labels|]; destruct annotations as [annotations|].
    all: cbn -[Go.rangeAssignTo]; rewrite rangeAssignTo_Some; cbn -[Go.rangeAssignTo].
    all: destruct (Selector (Spec mi)) as [selector|]; cbn -[Go.rangeAssignTo].
    all: rewrite ?rangeAssignTo_Some; cbn; eexists; (split; [reflexivity|]); cbn.
    all: by rewrite ?(left_id_L ∅ (∪)).
  - cbn -[Go.rangeAssignTo]; rewrite rangeAssignTo_Some; cbn -[Go.rangeAssignTo].
    destruct (Selector (Spec mi)) as [selector|]; cbn -[Go.rangeAssignTo].
    all: rewrite ?rangeAssignTo_Some; cbn; eexists; (split; [reflexivity|]); cbn.
    all: by rewrite ?(left_id_L ∅ (∪)).
Qed.

(** Overlaying the same two maps a second time changes nothing. *)
Lemma overlay_twice (m p u : gmap string string) :
  m ∪ (p ∪ (m ∪ (p ∪ u))) = m ∪ (p ∪ u).
Proof.
  apply map_eq. intros k. rewrite !lookup_union.
  destruct (m !! k), (p !! k), (u !! k); reflexivity.
Qed.

Lemma storeLabels_twice (mi : MinIOInstance) l1 l2 :
  storeLabels (storeLabels mi l1) l2 = storeLabels mi l2.
Proof.
  destruct mi as [om scheduler spec rest]. destruct spec. unfold storeLabels. cbn.
  by destruct Metadata0.
Qed.

(** Run with the shared map, [minioMetadata] returns what it returns
    without, and leaves the final labels in the resource's own label map
    when the user metadata has one. *)
Lemma minioMetadataInPlace_eq (mi : MinIOInstance) :
  ∃ meta,
    minioMetadata mi = Some meta
    ∧ minioMetadataInPlace mi =
        Some (meta,
              if bool_decide (is_Some (metav1.Labels (userMetadata mi)))
              then storeLabels mi (metav1.Labels meta) else mi).
Proof.
  destruct (minioMetadata_eq mi) as (meta & Hmeta & _).
  exists meta. split; [exact Hmeta|]. revert Hmeta.
  unfold minioMetadata, minioMetadataInPlace, writeLabels, userMetadata.
  rewrite HasMetadata_eq.
  destruct (Metadata (Spec mi)) as [user|] eqn:Huser.
  - destruct user as [name ns uid labels annotations owners other].
    destruct labels as [labels|]; destruct annotations as [annotations|].
    all: cbn -[Go.rangeAssignTo]; rewrite !rangeAssignTo_Some; cbn -[Go.rangeAssignTo].
    all: unfold HasSelector; cbn -[Go.rangeAssignTo].
    all: destruct (Selector (Spec mi)) as [selector|]; cbn -[Go.rangeAssignTo].
    all: rewrite ?rangeAssignTo_Some; cbn; intros [= <-]; cbn.
    all: by rewrite ?storeLabels_twice.
  - cbn -[Go.rangeAssignTo]; rewrite !rangeAssignTo_Some; cbn -[Go.rangeAssignTo].
    rewrite HasSelector_eq.
    destruct (Selector (Spec mi)) as [selector|]; cbn -[Go.rangeAssignTo].
    all: rewrite ?rangeAssignTo_Some; cbn; by intros [= <-].
Qed.

End MoreHelpers.

(** ** Further properties of the compiler *)

Section Further.
Import miniov1 statefulsets.
Context `{!K8sPayload} `{!Package} `{!Go.Fmt}.

Lemma NewForMinIO_no_zone (mi : MinIOInstance) (serviceName : string) :
  Zones (Spec mi) = [] → NewForMinIO mi serviceName = None.
Proof.
  intros Hzones. unfold NewForMinIO.
  rewrite (minioServerContainer_no_zone mi serviceName Hzones),
    RequiresExternalCertSetup_eq.
  destruct (RequiresAutoCertSetup mi);
    destruct (ExternalCertSecret (Spec mi)); reflexivity.
Qed.

(** The descriptor and its one container, when there is a first zone. *)
Lemma NewForMinIO_container (mi : MinIOInstance) (serviceName : string) z zs :
  Zones (Spec mi) = z :: zs →
  ∃ ss c,
    NewForMinIO mi serviceName = Some ss
    ∧ corev1.Containers (podSpec ss) = [c]
    ∧ corev1.Container_VolumeMounts c = volumeMounts mi
    ∧ minioEnvironmentVars mi = Some (corev1.Container_Env c)
    ∧ corev1.Container_Args c =
        if Servers z =? 1 then [ "server"%string; MinIOVolumeMountPath ]
        else "server"%string :: map (peerURL mi) (MinIOHosts mi).
Proof.
  intros Hzones.
  destruct (NewForMinIO_eq mi serviceName z zs Hzones)
    as (ss & c & meta & Hss & Hc & _ & Hcs & _).
  destruct (minioServerContainer_eq mi serviceName z zs Hzones) as (env & Henv & Hc').
  rewrite Hc in Hc'. injection Hc' as ->.
  exists ss. eexists. split; [exact Hss|]. split; [exact Hcs|]. by cbn.
Qed.

(** X1. Scheduling hints. The pod carries the resource's tolerations in
    their order, its affinity, its scheduler name and its image pull
    secret as the one pull secret, and restarts always; its security
    context is never nil: the resource's when it has one, the zero value
    otherwise. *)
Theorem X1_scheduling_hints (mi : MinIOInstance) (serviceName : string) :
  Zones (Spec mi) ≠ [] →
  ∃ ss,
    NewForMinIO mi serviceName = Some ss
    ∧ corev1.PodSpec_Tolerations (podSpec ss) = Tolerations (Spec mi)
    ∧ corev1.PodSpec_SecurityContext (podSpec ss) =
        Some (default PodSecurityContext_zero (SecurityContext (Spec mi)))
    ∧ corev1.PodSpec_Affinity (podSpec ss) = Affinity (Spec mi)
    ∧ corev1.SchedulerName (podSpec ss) = MinIOInstanceScheduler_Name (Scheduler mi)
    ∧ corev1.ImagePullSecrets (podSpec ss) = [ImagePullSecret (Spec mi)]
    ∧ corev1.RestartPolicy (podSpec ss) = "Always"%string.
Proof.
  intros (z & zs & Hzones)%nonempty_zones.
  destruct (NewForMinIO_header mi serviceName z zs Hzones)
    as (ss & Hss & _ & _ & _ & _ & _ & Hpull & Hrestart & Haff & Hsched & Htol & Hsc).
  exists ss. split; [exact Hss|].
  rewrite Htol, Hsc, Haff, Hsched, Hpull, Hrestart.
  repeat split. unfold minioTolerations. apply rangeAppend_id.
Qed.

(** X2. Identity and ownership. The descriptor bears the resource's name
    and namespace and no labels or annotations of its own; its one owner
    reference names the resource by name and UID under the package's
    kind, as controller and with owner deletion blocked, the API version
    being group/version, or the version alone when the group is empty.
    Update strategy, pod management policy, replica count and service
    name are the package default, the resource's policy, the derived
    replica count and the given service name. *)
Theorem X2_identity_and_ownership (mi : MinIOInstance) (serviceName : string) :
  Zones (Spec mi) ≠ [] →
  ∃ ss owner,
    NewForMinIO mi serviceName = Some ss
    ∧ metav1.Name (appsv1.StatefulSet_ObjectMeta ss) = Name mi
    ∧ metav1.Namespace (appsv1.StatefulSet_ObjectMeta ss) = Namespace mi
    ∧ metav1.Labels (appsv1.StatefulSet_ObjectMeta ss) = None
    ∧ metav1.Annotations (appsv1.StatefulSet_ObjectMeta ss) = None
    ∧ metav1.OwnerReferences (appsv1.StatefulSet_ObjectMeta ss) = [owner]
    ∧ metav1.OwnerReference_Name owner = Name mi
    ∧ metav1.OwnerReference_UID owner = metav1.UID (ObjectMeta mi)
    ∧ metav1.OwnerReference_Kind owner = MinIOCRDResourceKind
    ∧ metav1.OwnerReference_Controller owner = Some true
    ∧ metav1.OwnerReference_BlockOwnerDeletion owner = Some true
    ∧ metav1.OwnerReference_APIVersion owner =
        (if String.eqb (metav1.Group SchemeGroupVersion) ""
         then metav1.Version SchemeGroupVersion
         else metav1.Group SchemeGroupVersion +:+ "/" +:+ metav1.Version SchemeGroupVersion)
    ∧ appsv1.StatefulSetUpdateStrategy_Type
        (appsv1.UpdateStrategy (appsv1.StatefulSet_Spec ss)) = DefaultUpdateStrategy
    ∧ appsv1.PodManagementPolicy (appsv1.StatefulSet_Spec ss) = PodManagementPolicy (Spec mi)
    ∧ appsv1.Replicas (appsv1.StatefulSet_Spec ss) = Some (MinIOReplicas mi)
    ∧ appsv1.ServiceName (appsv1.StatefulSet_Spec ss) = serviceName.
Proof.
  intros (z & zs & Hzones)%nonempty_zones.
  destruct (NewForMinIO_header mi serviceName z zs Hzones)
    as (ss & Hss & Hmeta & Hupdate & Hpolicy & Hservice & Hreplicas & _).
  exists ss. eexists. split; [exact Hss|].
  rewrite Hmeta, Hupdate, Hpolicy, Hservice, Hreplicas. by cbn.
Qed.

(** X3. The service name goes to the descriptor's service name field and
    nowhere else: two service names give the same container and
    descriptors that agree in every other field, and without a first zone
    both calls panic. *)
Theorem X3_service_name_only (mi : MinIOInstance) (s1 s2 : string) :
  minioServerContainer mi s1 = minioServerContainer mi s2
  ∧ exceptServiceName <$> NewForMinIO mi s1 = exceptServiceName <$> NewForMinIO mi s2
  ∧ (λ ss, appsv1.ServiceName (appsv1.StatefulSet_Spec ss)) <$> NewForMinIO mi s1
    = (λ _, s1) <$> NewForMinIO mi s1.
Proof.
  split; [reflexivity|].
  destruct (Zones (Spec mi)) as [|z zs] eqn:Hzones.
  - by rewrite !(NewForMinIO_no_zone mi _ Hzones).
  - destruct (NewForMinIO_header mi s1 z zs Hzones) as (ss1 & Hss1 & _ & _ & _ & Hs1 & _).
    split; [|by rewrite Hss1; cbn; rewrite Hs1].
    clear ss1 Hss1 Hs1.
    destruct (minioServerContainer_eq mi s1 z zs Hzones) as (env & _ & Hc).
    destruct (minioMetadata_labels mi) as (meta & Hmeta & _).
    unfold NewForMinIO.
    change (minioServerContainer mi s2) with (minioServerContainer mi s1).
    rewrite Hc, Hmeta, RequiresExternalCertSetup_eq.
    destruct (RequiresAutoCertSetup mi);
      destruct (ExternalCertSecret (Spec mi)); reflexivity.
Qed.

(** X4. The pod metadata never has a nil label or annotation map; its
    annotations are the user's, and name, namespace, UID, owner
    references and the remaining fields are those of the user metadata
    (the zero values when there is none). *)
Theorem X4_metadata_maps (mi : MinIOInstance) :
  ∃ meta,
    minioMetadata mi = Some meta
    ∧ is_Some (metav1.Labels meta)
    ∧ is_Some (metav1.Annotations meta)
    ∧ Go.entries (metav1.Annotations meta) =
        Go.entries (metav1.Annotations (userMetadata mi))
    ∧ metav1.Name meta = metav1.Name (userMetadata mi)
    ∧ metav1.Namespace meta = metav1.Namespace (userMetadata mi)
    ∧ metav1.UID meta = metav1.UID (userMetadata mi)
    ∧ metav1.OwnerReferences meta = metav1.OwnerReferences (userMetadata mi)
    ∧ metav1.ObjectMeta_Rest meta = metav1.ObjectMeta_Rest (userMetadata mi).
Proof.
  destruct (minioMetadata_eq mi)
    as (meta & Hmeta & Hlabels & Hann & Hname & Hns & Huid & Howners & Hrest).
  exists meta. split; [exact Hmeta|]. rewrite Hlabels, Hann.
  repeat split; eauto.
Qed.

(** X5. Label precedence, key by key: a key of the user selector's match
    labels has the selector's value; otherwise the identity key has the
    StatefulSet name; otherwise the key has the value of the user
    metadata, if any.  No user label is dropped and no other key
    appears. *)
Theorem X5_label_precedence (mi : MinIOInstance) :
  ∃ meta,
    minioMetadata mi = Some meta
    ∧ ∀ key,
        Go.entries (metav1.Labels meta) !! key =
        match userMatchLabels mi !! key with
        | Some value => Some value
        | None =>
            if decide (key = InstanceLabel) then Some (MinIOStatefulSetName mi)
            else userLabels mi !! key
        end.
Proof.
  destruct (minioMetadata_eq mi) as (meta & Hmeta & Hlabels & _).
  exists meta. split; [exact Hmeta|]. intros key. rewrite Hlabels. cbn.
  rewrite !lookup_union. unfold MinIOPodLabels.
  destruct (decide (key = InstanceLabel)) as [->|Hne].
  - rewrite lookup_singleton_eq.
    by destruct (userMatchLabels mi !! InstanceLabel), (userLabels mi !! InstanceLabel).
  - rewrite lookup_singleton_ne by done.
    by destruct (userMatchLabels mi !! key), (userLabels mi !! key).
Qed.

(** X6. The call is not free of effects on the resource.  When the user
    metadata has a label map, [minioMetadata] leaves the labels it
    returns in that very map, and changes nothing else of the resource;
    when the user metadata is absent or has no label map, the resource is
    left as it was. *)
Theorem X6_labels_written_to_resource (mi : MinIOInstance) :
  ∃ meta after,
    minioMetadataInPlace mi = Some (meta, after)
    ∧ minioMetadata mi = Some meta
    ∧ match Metadata (Spec mi) with
      | Some user =>
          match metav1.Labels user with
          | Some _ =>
              after = storeLabels mi (metav1.Labels meta)
              ∧ Metadata (Spec after) =
                  Some (metav1.ObjectMeta_setLabels user (metav1.Labels meta))
          | None => after = mi
          end
      | None => after = mi
      end.
Proof.
  destruct (minioMetadataInPlace_eq mi) as (meta & Hmeta & Hin).
  exists meta. eexists. split; [exact Hin|]. split; [exact Hmeta|].
  unfold userMetadata. destruct (Metadata (Spec mi)) as [user|] eqn:Huser; cbn.
  - destruct (metav1.Labels user) as [labels|]; cbn; [|reflexivity].
    split; [reflexivity|]. cbn. by rewrite Huser.
  - reflexivity.
Qed.

(** X7. A second call on the resource as the first call left it returns the
    same pod metadata and leaves the resource as it is, provided the
    StatefulSet name does not depend on the labels written. *)
Theorem X7_metadata_idempotent (mi : MinIOInstance) :
  ∃ meta after,
    minioMetadataInPlace mi = Some (meta, after)
    ∧ (MinIOStatefulSetName after = MinIOStatefulSetName mi →
       minioMetadataInPlace after = Some (meta, after)).
Proof.
  destruct (minioMetadataInPlace_eq mi) as (meta & Hmeta & Hin).
  exists meta. eexists. split; [exact Hin|]. intros Hname.
  destruct (bool_decide (is_Some (metav1.Labels (userMetadata mi)))) eqn:Hshared;
    [|exact Hin].
  apply bool_decide_eq_true in Hshared as [labels Hlabels].
  unfold userMetadata in Hlabels.
  destruct (Metadata (Spec mi)) as [user|] eqn:Huser; [|discriminate]. cbn in Hlabels.
  destruct (minioMetadata_eq mi)
    as (meta1 & Hmeta1 & Hl1 & Ha1 & Hn1 & Hns1 & Hu1 & Ho1 & Hr1).
  rewrite Hmeta in Hmeta1. injection Hmeta1 as <-.
  set (after := storeLabels mi (metav1.Labels meta)) in *.
  assert (Hafter : Metadata (Spec after) =
            Some (metav1.ObjectMeta_setLabels user (metav1.Labels meta))).
  { subst after. cbn. by rewrite Huser. }
  destruct (minioMetadataInPlace_eq after) as (meta2 & Hmeta2 & Hin2).
  destruct (minioMetadata_eq after)
    as (meta3 & Hmeta3 & Hl2 & Ha2 & Hn2 & Hns2 & Hu2 & Ho2 & Hr2).
  rewrite Hmeta2 in Hmeta3. injection Hmeta3 as <-.
  assert (Hmatch : userMatchLabels after = userMatchLabels mi) by reflexivity.
  assert (Hpod : MinIOPodLabels after = MinIOPodLabels mi).
  { unfold MinIOPodLabels. by rewrite Hname. }
  assert (Huser' : userLabels after = Go.entries (metav1.Labels meta)).
  { unfold userLabels. by rewrite Hafter. }
  unfold userMetadata in *. rewrite Hafter in *. rewrite Huser in *. cbn in *.
  rewrite Hmatch, Hpod, Huser', Hl1 in Hl2. cbn in Hl2.
  rewrite overlay_twice in Hl2.
  assert (Hsame : meta2 = meta).
  { destruct meta2, meta. unfold Go.entries in *. cbn in *. congruence. }
  rewrite Hsame in Hin2. rewrite Hin2.
  rewrite Hl1. cbn.
  subst after. by rewrite storeLabels_twice, Hl1.
Qed.

(** X8. Names never collide.  The names of the volume claim templates are
    pairwise distinct, and so are the names and the paths of the storage
    mounts, whatever the number of volumes per server. *)
Theorem X8_distinct_names (mi : MinIOInstance) (serviceName : string) :
  Zones (Spec mi) ≠ [] →
  ∃ ss c,
    NewForMinIO mi serviceName = Some ss
    ∧ corev1.Containers (podSpec ss) = [c]
    ∧ NoDup (map corev1.PersistentVolumeClaim_Name (claimTemplates ss))
    ∧ NoDup (map corev1.VolumeMount_Name (storageMounts mi c))
    ∧ NoDup (map corev1.VolumeMount_MountPath (storageMounts mi c)).
Proof.
  intros (z & zs & Hzones)%nonempty_zones.
  destruct (NewForMinIO_container mi serviceName z zs Hzones)
    as (ss & c & Hss & Hcs & Hmounts & _).
  destruct (NewForMinIO_eq mi serviceName z zs Hzones)
    as (ss' & _ & _ & Hss' & _ & _ & _ & _ & _ & _ & Hclaims).
  rewrite Hss in Hss'. injection Hss' as <-.
  exists ss, c. split; [exact Hss|]. split; [exact Hcs|].
  unfold storageMounts. rewrite Hmounts, take_storage, Hclaims.
  repeat split.
  - destruct (VolumeClaimTemplate (Spec mi)) as [template|]; [|constructor].
    rewrite map_map. apply NoDup_suffixed.
  - destruct (VolumesPerServer (Spec mi) =? 1); [apply NoDup_singleton|].
    rewrite map_map. apply NoDup_suffixed.
  - destruct (VolumesPerServer (Spec mi) =? 1); [apply NoDup_singleton|].
    rewrite map_map. apply NoDup_suffixed.
Qed.

(** X9. No volume per server.  When the number of volumes per server is zero
    or negative the descriptor is still produced, with no storage mount
    (the certificate mount alone when certificates are required) and no
    volume claim template, even with a claim template configured. *)
Theorem X9_no_volumes_per_server (mi : MinIOInstance) (serviceName : string) :
  Zones (Spec mi) ≠ [] →
  VolumesPerServer (Spec mi) ≤ 0 →
  ∃ ss c,
    NewForMinIO mi serviceName = Some ss
    ∧ corev1.Containers (podSpec ss) = [c]
    ∧ corev1.Container_VolumeMounts c =
        (if certificatesRequired mi then [certificateMount mi] else [])
    ∧ claimTemplates ss = [].
Proof.
  intros (z & zs & Hzones)%nonempty_zones Hnone.
  destruct (NewForMinIO_container mi serviceName z zs Hzones)
    as (ss & c & Hss & Hcs & Hmounts & _).
  destruct (NewForMinIO_eq mi serviceName z zs Hzones)
    as (ss' & _ & _ & Hss' & _ & _ & _ & _ & _ & _ & Hclaims).
  rewrite Hss in Hss'. injection Hss' as <-.
  assert (Hempty : seqZ 0 (VolumesPerServer (Spec mi)) = []).
  { apply length_zero_iff_nil. rewrite length_seqZ. lia. }
  exists ss, c. split; [exact Hss|]. split; [exact Hcs|].
  rewrite Hmounts, volumeMounts_storage, Hclaims, Hempty.
  replace (VolumesPerServer (Spec mi) =? 1) with false
    by (symmetry; apply Z.eqb_neq; lia).
  split; [reflexivity|]. by destruct (VolumeClaimTemplate (Spec mi)).
Qed.

(** X10. The standalone path and the mounts.  With a first zone of one server
    the server is given the canonical storage path; the storage mounts
    are at that path when there is one volume per server and at the
    index-suffixed paths otherwise, so the path given to the server is
    the path of a storage mount exactly when there is one volume per
    server. *)
Theorem X10_standalone_path (mi : MinIOInstance) (serviceName : string) z zs :
  Zones (Spec mi) = z :: zs →
  Servers z = 1 →
  ∃ ss c,
    NewForMinIO mi serviceName = Some ss
    ∧ corev1.Containers (podSpec ss) = [c]
    ∧ corev1.Container_Args c = [ "server"%string; MinIOVolumeMountPath ]
    ∧ map corev1.VolumeMount_MountPath (storageMounts mi c) =
        (if VolumesPerServer (Spec mi) =? 1 then [ MinIOVolumeMountPath ]
         else map (λ i, MinIOVolumeMountPath +:+ Go.Itoa i)
                  (seqZ 0 (VolumesPerServer (Spec mi))))
    ∧ (In MinIOVolumeMountPath (map corev1.VolumeMount_MountPath (storageMounts mi c))
       ↔ VolumesPerServer (Spec mi) = 1).
Proof.
  intros Hzones Hone.
  destruct (NewForMinIO_container mi serviceName z zs Hzones)
    as (ss & c & Hss & Hcs & Hmounts & _ & Hargs).
  exists ss, c. split; [exact Hss|]. split; [exact Hcs|].
  rewrite Hargs, Hone. split; [reflexivity|].
  unfold storageMounts. rewrite Hmounts, take_storage.
  destruct (VolumesPerServer (Spec mi) =? 1) eqn:Hvolumes.
  - apply Z.eqb_eq in Hvolumes. split; [reflexivity|]. split; [done|]. by left.
  - apply Z.eqb_neq in Hvolumes. rewrite map_map. cbn. split; [reflexivity|].
    split; [|done].
    intros (i & Hpath & _)%in_map_iff.
    by apply append_nonempty_ne in Hpath; [|apply Itoa_nonempty].
Qed.

Lemma primaryCertificate_paths (mi : MinIOInstance) :
  ∃ secret items,
    primaryCertificate mi = secretSource secret items
    ∧ map corev1.Path items = [ "public.crt"; "private.key"; "CAs/public.crt" ]%string.
Proof.
  unfold primaryCertificate.
  destruct (RequiresAutoCertSetup mi); [by eexists _, _|].
  destruct (ExternalCertSecret (Spec mi)) as [external|]; [|by eexists _, _].
  destruct (String.eqb (LocalCertificateReference_Type external) "kubernetes.io/tls");
    [by eexists _, _|].
  destruct (String.eqb (LocalCertificateReference_Type external)
              "cert-manager.io/v1alpha2"); by eexists _, _.
Qed.

(** X11. The pod volumes by name and by source.  The pod volumes are, in
    order, one volume per zone when no claim template is configured,
    named after the zone and backed by an empty directory of the default
    medium and by nothing else, and then, when certificates are required,
    one volume named after the TLS secret and backed by a projection and
    by nothing else; there is no other volume.  So the volume names are
    the zone names followed by the TLS secret name, and every volume has
    exactly one volume source. *)
Theorem X11_volume_names_and_sources (mi : MinIOInstance) (serviceName : string) :
  Zones (Spec mi) ≠ [] →
  ∃ ss sources,
    NewForMinIO mi serviceName = Some ss
    ∧ podVolumes ss =
        match VolumeClaimTemplate (Spec mi) with
        | None =>
            map (λ zone,
                   {| corev1.Volume_Name := Zone_Name zone;
                      corev1.Volume_VolumeSource :=
                        {| corev1.EmptyDir := Some {| corev1.Medium := "" |};
                           corev1.Projected := None |} |})
                (Zones (Spec mi))
        | Some _ => []
        end
        ++ (if certificatesRequired mi then
              [ {| corev1.Volume_Name := MinIOTLSSecretName mi;
                   corev1.Volume_VolumeSource :=
                     {| corev1.EmptyDir := None;
                        corev1.Projected := Some {| corev1.Sources := sources |} |} |} ]
            else [])
    ∧ map corev1.Volume_Name (podVolumes ss) =
        match VolumeClaimTemplate (Spec mi) with
        | None => map Zone_Name (Zones (Spec mi))
        | Some _ => []
        end
        ++ (if certificatesRequired mi then [ MinIOTLSSecretName mi ] else [])
    ∧ Forall (λ v,
        let source := corev1.Volume_VolumeSource v in
        is_Some (corev1.EmptyDir source) ↔ corev1.Projected source = None)
      (podVolumes ss).
Proof.
  intros (z & zs & Hzones)%nonempty_zones.
  destruct (NewForMinIO_eq mi serviceName z zs Hzones)
    as (ss & _ & _ & Hss & _ & _ & _ & _ & _ & Hvolumes & _).
  rewrite getVolumesForContainer_eq in Hvolumes.
  exists ss. eexists. split; [exact Hss|].
  assert (Hexact : podVolumes ss =
    match VolumeClaimTemplate (Spec mi) with
    | None => map (λ zone, emptyDirVolume (Zone_Name zone)) (Zones (Spec mi))
    | Some _ => []
    end
    ++ (if certificatesRequired mi then
          [ projectedVolume (MinIOTLSSecretName mi)
              (primaryCertificate mi ::
               if HasKESEnabled mi then keyServiceSources mi else []) ]
        else [])).
  { rewrite Hvolumes. by destruct (VolumeClaimTemplate (Spec mi)). }
  split; [|split].
  - rewrite Hexact. by destruct (certificatesRequired mi).
  - rewrite Hexact, map_app. f_equal.
    + destruct (VolumeClaimTemplate (Spec mi)); [reflexivity|by rewrite map_map].
    + by destruct (certificatesRequired mi).
  - rewrite Hexact. apply Forall_app. split.
    + destruct (VolumeClaimTemplate (Spec mi)); [constructor|].
      apply List.Forall_forall. intros v (zone & <- & _)%in_map_iff. cbn.
      split; [done|eauto].
    + destruct (certificatesRequired mi); [|constructor].
      constructor; [|constructor]. cbn. split; [intros [? [=]]|done].
Qed.

(** X12. Self-signed certificates take precedence.  When self-signed
    certificates are requested the primary source is the TLS secret
    under the self-signed key names, whether or not an external
    certificate secret is given and whatever its type. *)
Theorem X12_self_signed_first (mi : MinIOInstance) (serviceName : string) :
  Zones (Spec mi) ≠ [] →
  RequiresAutoCertSetup mi = true →
  ∃ ss others,
    NewForMinIO mi serviceName = Some ss
    ∧ podVolumes ss =
        getVolumesForContainer mi ++
        [ projectedVolume (MinIOTLSSecretName mi)
            (secretSource (MinIOTLSSecretName mi)
               [ keyToPath "public.crt" "public.crt";
                 keyToPath "private.key" "private.key";
                 keyToPath "public.crt" "CAs/public.crt" ]
             :: others) ].
Proof.
  intros (z & zs & Hzones)%nonempty_zones Hauto.
  destruct (NewForMinIO_eq mi serviceName z zs Hzones)
    as (ss & _ & _ & Hss & _ & _ & _ & _ & _ & Hvolumes & _).
  unfold certificatesRequired, primaryCertificate in Hvolumes.
  rewrite Hauto in Hvolumes.
  exists ss. eexists. split; [exact Hss|exact Hvolumes].
Qed.

(** X13. The two known external conventions.  In the external certificate
    mode the primary source names the external secret; for the type
    [kubernetes.io/tls] it projects [tls.crt] to [public.crt] and
    [CAs/public.crt] and [tls.key] to [private.key], for the type
    [cert-manager.io/v1alpha2] it projects [tls.crt] to [public.crt],
    [tls.key] to [private.key] and [ca.crt] to [CAs/public.crt]. *)
Theorem X13_known_external_types (mi : MinIOInstance) (serviceName : string) external :
  Zones (Spec mi) ≠ [] →
  RequiresAutoCertSetup mi = false →
  ExternalCertSecret (Spec mi) = Some external →
  LocalCertificateReference_Type external = "kubernetes.io/tls"%string
  ∨ LocalCertificateReference_Type external = "cert-manager.io/v1alpha2"%string →
  ∃ ss others,
    NewForMinIO mi serviceName = Some ss
    ∧ podVolumes ss =
        getVolumesForContainer mi ++
        [ projectedVolume (MinIOTLSSecretName mi)
            (secretSource (LocalCertificateReference_Name external)
               [ keyToPath "tls.crt" "public.crt";
                 keyToPath "tls.key" "private.key";
                 keyToPath
                   (if String.eqb (LocalCertificateReference_Type external)
                         "kubernetes.io/tls"
                    then "tls.crt" else "ca.crt")
                   "CAs/public.crt" ]
             :: others) ].
Proof.
  intros (z & zs & Hzones)%nonempty_zones Hauto Hexternal Htype.
  destruct (NewForMinIO_eq mi serviceName z zs Hzones)
    as (ss & _ & _ & Hss & _ & _ & _ & _ & _ & Hvolumes & _).
  unfold certificatesRequired, primaryCertificate in Hvolumes.
  rewrite RequiresExternalCertSetup_eq, Hauto, Hexternal in Hvolumes.
  exists ss. eexists. split; [exact Hss|]. rewrite Hvolumes.
  destruct Htype as [-> | ->]; reflexivity.
Qed.

(** X14. The TLS volume and its mount.  When certificates are required the
    last pod volume and the last mount of the container bear the same
    name, the mount is at the certificate directory, and the volume
    projects the same file names whatever the certificate mode: the
    certificate, the key and the CA copy, then the client pair and the
    key service's CA when the key service is enabled; no file name is
    projected twice. *)
Theorem X14_tls_volume_and_mount (mi : MinIOInstance) (serviceName : string) :
  Zones (Spec mi) ≠ [] →
  certificatesRequired mi = true →
  ∃ ss c volume mount,
    NewForMinIO mi serviceName = Some ss
    ∧ corev1.Containers (podSpec ss) = [c]
    ∧ last (podVolumes ss) = Some volume
    ∧ last (corev1.Container_VolumeMounts c) = Some mount
    ∧ corev1.VolumeMount_Name mount = corev1.Volume_Name volume
    ∧ corev1.VolumeMount_MountPath mount = "/root/.minio/certs"%string
    ∧ projectedPaths volume =
        [ "public.crt"; "private.key"; "CAs/public.crt" ]%string
        ++ (if HasKESEnabled mi
            then [ "client.crt"; "client.key"; "CAs/server.crt" ]%string else [])
    ∧ NoDup (projectedPaths volume).
Proof.
  intros (z & zs & Hzones)%nonempty_zones Hcerts.
  destruct (NewForMinIO_container mi serviceName z zs Hzones)
    as (ss & c & Hss & Hcs & Hmounts & _).
  destruct (NewForMinIO_eq mi serviceName z zs Hzones)
    as (ss' & _ & _ & Hss' & _ & _ & _ & _ & _ & Hvolumes & _).
  rewrite Hss in Hss'. injection Hss' as <-.
  rewrite Hcerts in Hvolumes.
  destruct (primaryCertificate_paths mi) as (secret & items & Hprimary & Hpaths).
  exists ss, c. eexists _, _. split; [exact Hss|]. split; [exact Hcs|].
  split; [rewrite Hvolumes; apply last_snoc|].
  split; [rewrite Hmounts, volumeMounts_storage, Hcerts; apply last_snoc|].
  split; [reflexivity|]. split; [reflexivity|].
  assert (Hprojected :
    projectedPaths
      (projectedVolume (MinIOTLSSecretName mi)
         (primaryCertificate mi :: if HasKESEnabled mi then keyServiceSources mi else []))
    = [ "public.crt"; "private.key"; "CAs/public.crt" ]%string
      ++ (if HasKESEnabled mi
          then [ "client.crt"; "client.key"; "CAs/server.crt" ]%string else [])).
  { unfold projectedPaths. rewrite Hprimary. cbn. rewrite Hpaths.
    by destruct (HasKESEnabled mi). }
  split; [exact Hprojected|]. rewrite Hprojected.
  destruct (HasKESEnabled mi); apply (bool_decide_unpack _); by vm_compute.
Qed.

(** X15. The key-service files are where the environment says.  With
    certificates required and the key service enabled, each of the three
    file variables of the key service holds the path of the certificate
    mount followed by a file name that the TLS volume projects. *)
Theorem X15_key_service_files (mi : MinIOInstance) (serviceName : string) :
  Zones (Spec mi) ≠ [] →
  certificatesRequired mi = true →
  HasKESEnabled mi = true →
  ∃ ss c volume mount,
    NewForMinIO mi serviceName = Some ss
    ∧ corev1.Containers (podSpec ss) = [c]
    ∧ last (podVolumes ss) = Some volume
    ∧ last (corev1.Container_VolumeMounts c) = Some mount
    ∧ corev1.VolumeMount_Name mount = corev1.Volume_Name volume
    ∧ Forall (λ '(variable, file),
        In (literalEnv variable (corev1.VolumeMount_MountPath mount +:+ "/" +:+ file))
           (corev1.Container_Env c)
        ∧ In file (projectedPaths volume))
      [ ("MINIO_KMS_KES_CERT_FILE", "client.crt");
        ("MINIO_KMS_KES_KEY_FILE", "client.key");
        ("MINIO_KMS_KES_CA_PATH", "CAs/server.crt") ]%string.
Proof.
  intros (z & zs & Hzones)%nonempty_zones Hcerts Hkes.
  destruct (NewForMinIO_container mi serviceName z zs Hzones)
    as (ss & c & Hss & Hcs & Hmounts & Henv & _).
  destruct (NewForMinIO_eq mi serviceName z zs Hzones)
    as (ss' & _ & _ & Hss' & _ & _ & _ & _ & _ & Hvolumes & _).
  rewrite Hss in Hss'. injection Hss' as <-.
  rewrite Hcerts, Hkes in Hvolumes.
  rewrite minioEnvironmentVars_eq, Hkes in Henv. injection Henv as Henv.
  destruct (primaryCertificate_paths mi) as (secret & items & Hprimary & Hpaths).
  exists ss, c. eexists _, _. split; [exact Hss|]. split; [exact Hcs|].
  split; [rewrite Hvolumes; apply last_snoc|].
  split; [rewrite Hmounts, volumeMounts_storage, Hcerts; apply last_snoc|].
  split; [reflexivity|].
  rewrite <- Henv. unfold projectedPaths. rewrite Hprimary. cbn. rewrite Hpaths.
  repeat constructor;
    try (apply in_or_app; right; apply in_or_app; right; cbn; tauto);
    cbn; tauto.
Qed.

Ltac filter_names :=
  repeat first
    [ rewrite filter_nil
    | rewrite filter_cons_True by reflexivity
    | rewrite filter_cons_False by (cbn; congruence) ].

(** X16. Later entries decide.  The entries the compiler adds come after the
    user's, so where a name occurs twice the compiler's entry is the one
    that holds: with a credential secret the access and secret key are
    the secret references even if the user declared them, with the key
    service enabled the five key-service variables are the compiler's
    literals, and every other name keeps the user's last entry. *)
Theorem X16_later_entries_decide (mi : MinIOInstance) :
  ∃ env,
    minioEnvironmentVars mi = Some env
    ∧ (∀ creds, CredsSecret (Spec mi) = Some creds →
         effectiveEnv "MINIO_ACCESS_KEY" env =
           Some (secretReferenceEnv "MINIO_ACCESS_KEY"
                   (corev1.LocalObjectReference_Name creds) "accesskey")
         ∧ effectiveEnv "MINIO_SECRET_KEY" env =
           Some (secretReferenceEnv "MINIO_SECRET_KEY"
                   (corev1.LocalObjectReference_Name creds) "secretkey"))
    ∧ (HasKESEnabled mi = true →
         Forall (λ '(name, value), effectiveEnv name env = Some (literalEnv name value))
           [ ("MINIO_KMS_KES_ENDPOINT",
              "https://" +:+ Go.JoinHostPort (KESServiceHost mi) (Go.Itoa KESPort));
             ("MINIO_KMS_KES_CERT_FILE", "/root/.minio/certs/client.crt");
             ("MINIO_KMS_KES_KEY_FILE", "/root/.minio/certs/client.key");
             ("MINIO_KMS_KES_CA_PATH", "/root/.minio/certs/CAs/server.crt");
             ("MINIO_KMS_KES_KEY_NAME", KESMinIOKey) ]%string)
    ∧ (∀ name,
         ¬ In name ([ "MINIO_ACCESS_KEY"; "MINIO_SECRET_KEY" ]%string ++ kmsNames) →
         effectiveEnv name env = effectiveEnv name (Env (Spec mi))).
Proof.
  eexists. split; [apply minioEnvironmentVars_eq|].
  unfold effectiveEnv. split; [|split].
  - intros creds ->. rewrite !filter_app.
    destruct (HasKESEnabled mi); split; filter_names;
      rewrite ?app_nil_r; apply last_snoc.
  - intros ->. rewrite !Forall_cons. rewrite !filter_app.
    destruct (CredsSecret (Spec mi)) as [creds|];
      repeat split; try constructor; filter_names;
      rewrite ?app_nil_l, ?app_nil_r; by rewrite last_app.
  - intros name Hname. rewrite !filter_app.
    assert (Hadded :
      filter (λ e, corev1.EnvVar_Name e = name)
        (match CredsSecret (Spec mi) with
         | Some creds =>
             [ secretReferenceEnv "MINIO_ACCESS_KEY"
                 (corev1.LocalObjectReference_Name creds) "accesskey";
               secretReferenceEnv "MINIO_SECRET_KEY"
                 (corev1.LocalObjectReference_Name creds) "secretkey" ]
         | None => []
         end) = []
      ∧ filter (λ e, corev1.EnvVar_Name e = name)
          (if HasKESEnabled mi then
             [ literalEnv "MINIO_KMS_KES_ENDPOINT"
                 ("https://" +:+ Go.JoinHostPort (KESServiceHost mi) (Go.Itoa KESPort));
               literalEnv "MINIO_KMS_KES_CERT_FILE" "/root/.minio/certs/client.crt";
               literalEnv "MINIO_KMS_KES_KEY_FILE" "/root/.minio/certs/client.key";
               literalEnv "MINIO_KMS_KES_CA_PATH" "/root/.minio/certs/CAs/server.crt";
               literalEnv "MINIO_KMS_KES_KEY_NAME" KESMinIOKey ]
           else []) = []).
    { unfold kmsNames in Hname. cbn [app In] in Hname.
      split; [destruct (CredsSecret (Spec mi))|destruct (HasKESEnabled mi)];
        try reflexivity;
        repeat (rewrite filter_cons_False by (cbn; intros <-; tauto));
        reflexivity. }
    destruct Hadded as [-> ->]. by rewrite !app_nil_r.
Qed.

End Further.

(** ** The further properties on the sample resources *)

Section FurtherInstances.
Import miniov1 statefulsets Samples.

Lemma X1_witness :
  Zones (Spec withKeyService) ≠ []
  ∧ ∃ ss,
      NewForMinIO withKeyService "svc" = Some ss
      ∧ corev1.PodSpec_Tolerations (podSpec ss) = []
      ∧ corev1.PodSpec_SecurityContext (podSpec ss) = Some tt
      ∧ corev1.ImagePullSecrets (podSpec ss)
        = [ {| corev1.LocalObjectReference_Name := "" |} ].
Proof.
  assert (Hzones : Zones (Spec withKeyService) ≠ []) by discriminate.
  split; [exact Hzones|].
  destruct (X1_scheduling_hints withKeyService "svc" Hzones)
    as (ss & Hss & Htol & Hsc & _ & _ & Hpull & _).
  exists ss. split; [exact Hss|]. split; [exact Htol|]. split; [exact Hsc|exact Hpull].
Defined.

Lemma X2_witness :
  Zones (Spec standalone) ≠ []
  ∧ ∃ ss owner,
      NewForMinIO standalone "svc" = Some ss
      ∧ metav1.Name (appsv1.StatefulSet_ObjectMeta ss) = "minio"%string
      ∧ metav1.OwnerReferences (appsv1.StatefulSet_ObjectMeta ss) = [owner]
      ∧ metav1.OwnerReference_UID owner = "uid-1"%string
      ∧ metav1.OwnerReference_APIVersion owner = "operator.min.io/v1"%string
      ∧ appsv1.Replicas (appsv1.StatefulSet_Spec ss) = Some 1.
Proof.
  assert (Hzones : Zones (Spec standalone) ≠ []) by discriminate.
  split; [exact Hzones|].
  destruct (X2_identity_and_ownership standalone "svc" Hzones)
    as (ss & owner & Hss & Hname & _ & _ & _ & Howners & _ & Huid & _ & _ & _
        & Hversion & _ & _ & Hreplicas & _).
  exists ss, owner. split; [exact Hss|]. split; [exact Hname|].
  split; [exact Howners|]. split; [exact Huid|]. split; [exact Hversion|exact Hreplicas].
Defined.

Lemma X7_witness :
  ∃ meta after,
    minioMetadataInPlace metadataSetsIdentity = Some (meta, after)
    ∧ MinIOStatefulSetName after = MinIOStatefulSetName metadataSetsIdentity
    ∧ userLabels after !! "v1.min.io/instance" = Some "minio"%string
    ∧ minioMetadataInPlace after = Some (meta, after).
Proof.
  destruct (X7_metadata_idempotent metadataSetsIdentity) as (meta & after & Hin & Hagain).
  exists meta, after. split; [exact Hin|].
  assert (Hafter : after =
            storeLabels metadataSetsIdentity
              (Some {[ "v1.min.io/instance" := "minio"; "app" := "minio";
                       "tier" := "storage" ]}%string)).
  { vm_compute in Hin. injection Hin as _ <-. vm_compute. reflexivity. }
  assert (Hname : MinIOStatefulSetName after = MinIOStatefulSetName metadataSetsIdentity)
    by (rewrite Hafter; reflexivity).
  split; [exact Hname|]. split; [by rewrite Hafter|]. exact (Hagain Hname).
Defined.

Lemma X8_witness :
  Zones (Spec distributed) ≠ []
  ∧ ∃ ss c,
      NewForMinIO distributed "svc" = Some ss
      ∧ corev1.Containers (podSpec ss) = [c]
      ∧ NoDup (map corev1.PersistentVolumeClaim_Name (claimTemplates ss))
      ∧ NoDup (map corev1.VolumeMount_Name (storageMounts distributed c))
      ∧ NoDup (map corev1.VolumeMount_MountPath (storageMounts distributed c)).
Proof.
  assert (Hzones : Zones (Spec distributed) ≠ []) by discriminate.
  split; [exact Hzones|].
  exact (X8_distinct_names distributed "svc" Hzones).
Defined.

Lemma X9_witness :
  Zones (Spec noVolumes) ≠ []
  ∧ VolumesPerServer (Spec noVolumes) ≤ 0
  ∧ ∃ ss c,
      NewForMinIO noVolumes "svc" = Some ss
      ∧ corev1.Containers (podSpec ss) = [c]
      ∧ corev1.Container_VolumeMounts c =
          [ {| corev1.VolumeMount_Name := "minio-tls";
               corev1.VolumeMount_MountPath := "/root/.minio/certs" |} ]
      ∧ claimTemplates ss = [].
Proof.
  assert (Hzones : Zones (Spec noVolumes) ≠ []) by discriminate.
  assert (Hnone : VolumesPerServer (Spec noVolumes) ≤ 0) by (cbn; lia).
  split; [exact Hzones|]. split; [exact Hnone|].
  exact (X9_no_volumes_per_server noVolumes "svc" Hzones Hnone).
Defined.

Lemma X10_witness :
  Zones (Spec standaloneTwoVolumes) = [ {| Zone_Name := "zone-0"; Servers := 1 |} ]
  ∧ ∃ ss c,
      NewForMinIO standaloneTwoVolumes "svc" = Some ss
      ∧ corev1.Containers (podSpec ss) = [c]
      ∧ corev1.Container_Args c = [ "server"; "/export" ]%string
      ∧ map corev1.VolumeMount_MountPath (storageMounts standaloneTwoVolumes c)
        = [ "/export0"; "/export1" ]%string
      ∧ ¬ In "/export"%string
            (map corev1.VolumeMount_MountPath (storageMounts standaloneTwoVolumes c)).
Proof.
  assert (Hzones : Zones (Spec standaloneTwoVolumes)
                   = [ {| Zone_Name := "zone-0"; Servers := 1 |} ]) by reflexivity.
  split; [exact Hzones|].
  destruct (X10_standalone_path standaloneTwoVolumes "svc" _ _ Hzones eq_refl)
    as (ss & c & Hss & Hcs & Hargs & Hpaths & Hiff).
  exists ss, c. split; [exact Hss|]. split; [exact Hcs|]. split; [exact Hargs|].
  split; [exact Hpaths|]. intros Hin. apply Hiff in Hin. discriminate.
Defined.

Lemma X11_witness :
  Zones (Spec withKeyService) ≠ []
  ∧ ∃ ss sources,
      NewForMinIO withKeyService "svc" = Some ss
      ∧ podVolumes ss =
          [ emptyDirVolume "zone-0"; projectedVolume "minio-tls" sources ]
      ∧ map corev1.Volume_Name (podVolumes ss) = [ "zone-0"; "minio-tls" ]%string.
Proof.
  assert (Hzones : Zones (Spec withKeyService) ≠ []) by discriminate.
  split; [exact Hzones|].
  destruct (X11_volume_names_and_sources withKeyService "svc" Hzones)
    as (ss & sources & Hss & Hvolumes & Hnames & _).
  exists ss, sources. split; [exact Hss|]. split; [exact Hvolumes|exact Hnames].
Defined.

Lemma X12_witness :
  Zones (Spec bothCertificates) ≠ []
  ∧ RequiresAutoCertSetup bothCertificates = true
  ∧ RequiresExternalCertSetup bothCertificates = true
  ∧ ∃ ss others,
      NewForMinIO bothCertificates "svc" = Some ss
      ∧ podVolumes ss =
          [ emptyDirVolume "zone-0";
            projectedVolume "minio-tls"
              (secretSource "minio-tls"
                 [ keyToPath "public.crt" "public.crt";
                   keyToPath "private.key" "private.key";
                   keyToPath "public.crt" "CAs/public.crt" ]
               :: others) ].
Proof.
  assert (Hzones : Zones (Spec bothCertificates) ≠ []) by discriminate.
  assert (Hauto : RequiresAutoCertSetup bothCertificates = true) by reflexivity.
  split; [exact Hzones|]. split; [exact Hauto|]. split; [reflexivity|].
  exact (X12_self_signed_first bothCertificates "svc" Hzones Hauto).
Defined.

Lemma X13_witness :
  Zones (Spec certManager) ≠ []
  ∧ RequiresAutoCertSetup certManager = false
  ∧ ExternalCertSecret (Spec certManager) = Some
      {| LocalCertificateReference_Name := "minio-external";
         LocalCertificateReference_Type := "cert-manager.io/v1alpha2" |}
  ∧ ∃ ss others,
      NewForMinIO certManager "svc" = Some ss
      ∧ podVolumes ss =
          [ emptyDirVolume "zone-0";
            projectedVolume "minio-tls"
              (secretSource "minio-external"
                 [ keyToPath "tls.crt" "public.crt";
                   keyToPath "tls.key" "private.key";
                   keyToPath "ca.crt" "CAs/public.crt" ]
               :: others) ].
Proof.
  assert (Hzones : Zones (Spec certManager) ≠ []) by discriminate.
  assert (Hauto : RequiresAutoCertSetup certManager = false) by reflexivity.
  assert (Hexternal : ExternalCertSecret (Spec certManager) = Some
      {| LocalCertificateReference_Name := "minio-external";
         LocalCertificateReference_Type := "cert-manager.io/v1alpha2" |}) by reflexivity.
  split; [exact Hzones|]. split; [exact Hauto|]. split; [exact Hexternal|].
  exact (X13_known_external_types certManager "svc" _ Hzones Hauto Hexternal
           (or_intror eq_refl)).
Defined.

Lemma X14_witness :
  Zones (Spec withKeyService) ≠ []
  ∧ certificatesRequired withKeyService = true
  ∧ ∃ ss c volume mount,
      NewForMinIO withKeyService "svc" = Some ss
      ∧ corev1.Containers (podSpec ss) = [c]
      ∧ last (podVolumes ss) = Some volume
      ∧ last (corev1.Container_VolumeMounts c) = Some mount
      ∧ corev1.VolumeMount_Name mount = corev1.Volume_Name volume
      ∧ projectedPaths volume =
          [ "public.crt"; "private.key"; "CAs/public.crt";
            "client.crt"; "client.key"; "CAs/server.crt" ]%string.
Proof.
  assert (Hzones : Zones (Spec withKeyService) ≠ []) by discriminate.
  assert (Hcerts : certificatesRequired withKeyService = true) by reflexivity.
  split; [exact Hzones|]. split; [exact Hcerts|].
  destruct (X14_tls_volume_and_mount withKeyService "svc" Hzones Hcerts)
    as (ss & c & volume & mount & Hss & Hcs & Hvolume & Hmount & Hname & _ & Hpaths & _).
  exists ss, c, volume, mount. split; [exact Hss|]. split; [exact Hcs|].
  split; [exact Hvolume|]. split; [exact Hmount|]. split; [exact Hname|exact Hpaths].
Defined.

Lemma X15_witness :
  Zones (Spec withKeyService) ≠ []
  ∧ certificatesRequired withKeyService = true
  ∧ HasKESEnabled withKeyService = true
  ∧ ∃ ss c volume,
      NewForMinIO withKeyService "svc" = Some ss
      ∧ corev1.Containers (podSpec ss) = [c]
      ∧ last (podVolumes ss) = Some volume
      ∧ In (literalEnv "MINIO_KMS_KES_CA_PATH" "/root/.minio/certs/CAs/server.crt")
           (corev1.Container_Env c)
      ∧ In "CAs/server.crt"%string (projectedPaths volume).
Proof.
  assert (Hzones : Zones (Spec withKeyService) ≠ []) by discriminate.
  assert (Hcerts : certificatesRequired withKeyService = true) by reflexivity.
  assert (Hkes : HasKESEnabled withKeyService = true) by reflexivity.
  split; [exact Hzones|]. split; [exact Hcerts|]. split; [exact Hkes|].
  destruct (X15_key_service_files withKeyService "svc" Hzones Hcerts Hkes)
    as (ss & c & volume & mount & Hss & Hcs & Hvolume & Hmount & _ & Hfiles).
  exists ss, c, volume. split; [exact Hss|]. split; [exact Hcs|].
  split; [exact Hvolume|].
  assert (Hpath : corev1.VolumeMount_MountPath mount = "/root/.minio/certs"%string).
  { destruct (NewForMinIO_container withKeyService "svc" _ _ eq_refl)
      as (ss' & c' & Hss' & Hcs' & Hmounts & _).
    rewrite Hss in Hss'. injection Hss' as <-.
    rewrite Hcs in Hcs'. injection Hcs' as <-.
    rewrite Hmounts in Hmount. by injection Hmount as <-. }
  apply Forall_cons in Hfiles as [_ Hfiles].
  apply Forall_cons in Hfiles as [_ Hfiles].
  apply Forall_cons in Hfiles as [[Henv Hfile] _].
  rewrite Hpath in Henv. split; [exact Henv|exact Hfile].
Defined.

Lemma X16_witness :
  CredsSecret (Spec declaredCredentials)
  = Some {| corev1.LocalObjectReference_Name := "minio-creds" |}
  ∧ HasKESEnabled declaredCredentials = true
  ∧ In (literalEnv "MINIO_ACCESS_KEY" "minio") (Env (Spec declaredCredentials))
  ∧ ∃ env,
      minioEnvironmentVars declaredCredentials = Some env
      ∧ effectiveEnv "MINIO_ACCESS_KEY" env =
          Some (secretReferenceEnv "MINIO_ACCESS_KEY" "minio-creds" "accesskey")
      ∧ effectiveEnv "MINIO_KMS_KES_ENDPOINT" env =
          Some (literalEnv "MINIO_KMS_KES_ENDPOINT" "https://minio-kes-hl-svc:7373")
      ∧ effectiveEnv "MINIO_BROWSER" env = Some (literalEnv "MINIO_BROWSER" "off").
Proof.
  assert (Hcreds : CredsSecret (Spec declaredCredentials)
            = Some {| corev1.LocalObjectReference_Name := "minio-creds" |})
    by reflexivity.
  assert (Hkes : HasKESEnabled declaredCredentials = true) by reflexivity.
  split; [exact Hcreds|]. split; [exact Hkes|]. split; [by left|].
  destruct (X16_later_entries_decide declaredCredentials)
    as (env & Henv & Hsecret & Hservice & Hother).
  exists env. split; [exact Henv|].
  split; [exact (proj1 (Hsecret _ Hcreds))|].
  split.
  - apply Forall_cons in Hservice as [Hendpoint _]; [exact Hendpoint|exact Hkes].
  - rewrite Hother.
    + reflexivity.
    + unfold kmsNames. cbn. intuition discriminate.
Defined.

End FurtherInstances.
